(** * Rabwah factory backend: credential check, role gate and task lifecycle

    A shallow embedding of the request pipeline of the backend:

    - [verifyToken]   (middleware/auth.js)         bearer credential check
    - [requireRole]   (middleware/requireRole.js)  role gate
    - [create], [assign], [updateStatus]           (routes/task.routes.js)
    - the task schema (models/Task.js) with its setters and validators

    Request bodies are untyped JSON, so they are modelled by [jsval]; the
    Mongo collections are finite maps keyed by the document id. *)

From Stdlib Require Import ZArith Lia Bool Ascii String List.
From stdpp Require Import base option list gmap strings pretty.

Local Open Scope string_scope.

(** ** JavaScript values and strings *)

(** A JSON value as it reaches a handler in [req.body].  [JUndefined] is a
    property that is not there.  [JNum] carries integral numbers; no test in
    the handlers tells a fractional number from a non-zero integer. *)
#[warnings="-register-all"]
Inductive jsval : Type :=
| JUndefined
| JNull
| JBool (b : bool)
| JNum (z : Z)
| JStr (s : string)
| JArr (items : list jsval).

(** [!!v] of JavaScript: every value is truthy but undefined, null, false,
    0 and the empty string. *)
Definition truthy (v : jsval) : bool :=
  match v with
  | JUndefined | JNull => false
  | JBool b => b
  | JNum z => negb (z =? 0)%Z
  | JStr s => negb (s =? "")
  | JArr _ => true
  end.

(** [v === s] for a string literal [s]. *)
Definition strict_eq_str (v : jsval) (s : string) : bool :=
  match v with
  | JStr s' => s' =? s
  | _ => false
  end.

(** [a || b] on values. *)
Definition js_or (a b : jsval) : jsval := if truthy a then a else b.

Fixpoint map_string (f : ascii -> ascii) (s : string) : string :=
  match s with
  | EmptyString => EmptyString
  | String c r => String (f c) (map_string f r)
  end.

Definition lower_ascii (c : ascii) : ascii :=
  let n := N_of_ascii c in
  if ((65 <=? n) && (n <=? 90))%N then ascii_of_N (n + 32) else c.

(** [String.prototype.toLowerCase], on the ASCII letters. *)
Definition toLowerCase (s : string) : string := map_string lower_ascii s.

Definition is_space (c : ascii) : bool :=
  let n := N_of_ascii c in
  ((n =? 32) || ((9 <=? n) && (n <=? 13)))%N.

Fixpoint trimStart (s : string) : string :=
  match s with
  | EmptyString => EmptyString
  | String c r => if is_space c then trimStart r else s
  end.

Fixpoint trimEnd (s : string) : string :=
  match s with
  | EmptyString => EmptyString
  | String c r =>
      match trimEnd r with
      | EmptyString => if is_space c then EmptyString else String c EmptyString
      | r' => String c r'
      end
  end.

(** [String.prototype.trim], on the ASCII white space. *)
Definition trim (s : string) : string := trimEnd (trimStart s).

(** [s.split(sep)] for a one-character separator: never the empty list. *)
Fixpoint split (sep : ascii) (s : string) : list string :=
  match s with
  | EmptyString => [EmptyString]
  | String c r =>
      if Ascii.eqb c sep then EmptyString :: split sep r
      else match split sep r with
           | h :: t => String c h :: t
           | [] => [String c EmptyString]
           end
  end.

(** [s.startsWith(p)]. *)
Definition startsWith (p s : string) : bool := String.prefix p s.

(** [list.includes(x)] on strings. *)
Fixpoint includes (x : string) (l : list string) : bool :=
  match l with
  | [] => false
  | y :: r => (y =? x) || includes x r
  end.

(** ** Responses *)

(** The four ways a request is refused for its credential or role:
    401 "missing token", 401 "invalid token", 401 "no user context", 403. *)
Inductive AuthError : Type := Missing | Invalid | NoContext | Forbidden.

(** Every way a request ends without success.  [StoreError] is the 500 of a
    handler's [catch]; [Uncaught] is an exception thrown outside any [try],
    which Express answers with its own 500. *)
Inductive Failure : Type :=
| Auth (e : AuthError)
| MissingField
| NotFound
| StoreError
| Uncaught.

Definition http_status (f : Failure) : nat :=
  match f with
  | Auth Forbidden => 403
  | Auth _ => 401
  | MissingField => 400
  | NotFound => 404
  | StoreError | Uncaught => 500
  end.

Inductive outcome (A : Type) : Type :=
| Done (a : A)
| Fail (f : Failure).
Arguments Done {A} a.
Arguments Fail {A} f.

Definition obind {A B : Type} (m : outcome A) (k : A -> outcome B) : outcome B :=
  match m with
  | Done a => k a
  | Fail f => Fail f
  end.

(** [if (bad) return res.status(..)]. *)
Definition reject (bad : bool) (f : Failure) : outcome unit :=
  if bad then Fail f else Done tt.

Definition or_fail {A : Type} (o : option A) (f : Failure) : outcome A :=
  match o with
  | Some a => Done a
  | None => Fail f
  end.

Declare Scope outcome_scope.
Delimit Scope outcome_scope with outcome.
Notation "x <~ m ;; k" := (obind m (fun x => k))
  (at level 100, m at next level, right associativity) : outcome_scope.
Notation "m ;;; k" := (obind m (fun _ => k))
  (at level 100, right associativity) : outcome_scope.
Local Open Scope outcome_scope.

(** ** Roles *)

(** Modelled from the spec: constants/roles.js is not among the sources;
    the role enum is the closed set of lower-case names admin, manager,
    staff and customer. *)
Module ROLES.
Definition ADMIN : string := "admin".
Definition MANAGER : string := "manager".
Definition STAFF : string := "staff".
Definition CUSTOMER : string := "customer".
End ROLES.

(** ** Identity claims *)

(** The payload [signToken] puts in a credential (routes/auth.routes.js):
    [id] is the user's document id, [role] is [user.role?.toLowerCase()]
    and so may be missing, [email] is the user's address.  A payload whose
    role is neither missing nor a string is outside this type: lower-casing
    it throws inside the [try] of [verifyToken]. *)
Record Claims : Type := mkClaims {
  user_id : string;
  user_role : option string;
  user_email : string;
}.

(** [req.user.role === r]. *)
Definition role_is (u : Claims) (r : string) : bool :=
  match user_role u with
  | Some r' => r' =? r
  | None => false
  end.

(** ** CredentialVerifier: middleware/auth.js *)

Section CredentialVerifier.

(** [jwt.verify(token, process.env.JWT_SECRET)]: the decoded payload, or
    [None] when the library throws (malformed, bad signature, expired). *)
Variable jwt_verify : string -> option Claims.

(** [authHeader.startsWith("Bearer ") ? authHeader.split(" ")[1] : null];
    [None] stands for null and undefined alike. *)
Definition bearer_token (authHeader : string) : option string :=
  if startsWith "Bearer " authHeader then split " " authHeader !! 1%nat
  else None.

(** [if (decoded.role) decoded.role = decoded.role.toLowerCase()]. *)
Definition normalize_role (decoded : Claims) : Claims :=
  match user_role decoded with
  | Some r =>
      if r =? "" then decoded
      else mkClaims (user_id decoded) (Some (toLowerCase r)) (user_email decoded)
  | None => decoded
  end.

(** The middleware: the claims it attaches to the request, or the 401. *)
Definition verifyToken (authorization : option string) : outcome Claims :=
  let authHeader := default "" authorization in
  match bearer_token authHeader with
  | None | Some EmptyString => Fail (Auth Missing)
  | Some token =>
      match jwt_verify token with
      | Some decoded => Done (normalize_role decoded)
      | None => Fail (Auth Invalid)
      end
  end.

End CredentialVerifier.

(** ** RoleGate: middleware/requireRole.js *)

(** [allowedRoles.map(r => r.toLowerCase())]: a TypeError ([None]) at the
    first element that is not a string. *)
Fixpoint normalize_allowed (allowedRoles : list jsval) : option (list string) :=
  match allowedRoles with
  | [] => Some []
  | JStr r :: rest =>
      match normalize_allowed rest with
      | Some l => Some (toLowerCase r :: l)
      | None => None
      end
  | _ :: _ => None
  end.

(** [requireRole(...allowedRoles)(req, res, next)]: the rest parameter
    collects the call's arguments, whatever they are, in a list. *)
Definition requireRole (allowedRoles : list jsval) (req_user : option Claims)
  : outcome unit :=
  match req_user with
  | None => Fail (Auth NoContext)
  | Some user =>
      match user_role user with
      | None | Some EmptyString => Fail (Auth NoContext)
      | Some role =>
          let userRole := toLowerCase role in
          match normalize_allowed allowedRoles with
          | None => Fail Uncaught
          | Some normalizedAllowed =>
              if includes userRole normalizedAllowed then Done tt
              else Fail (Auth Forbidden)
          end
      end
  end.

(** The gate as the routes call it, one string argument per role. *)
Definition requireRoles (roles : list string) : option Claims -> outcome unit :=
  requireRole (JStr <$> roles).

(** ** The task schema: models/Task.js *)

(** [status]: enum "pending", "assigned", "in progress", "completed". *)
Inductive Status : Type := Pending | Assigned | InProgress | Completed.

(** [roleType]: enum "staff", "customer". *)
Inductive RoleType : Type := StaffTask | CustomerTask.

Definition Status_to_string (s : Status) : string :=
  match s with
  | Pending => "pending"
  | Assigned => "assigned"
  | InProgress => "in progress"
  | Completed => "completed"
  end.

(** The enum validator of [status]: exact match of one of the four names. *)
Definition Status_of_string (s : string) : option Status :=
  if s =? "pending" then Some Pending
  else if s =? "assigned" then Some Assigned
  else if s =? "in progress" then Some InProgress
  else if s =? "completed" then Some Completed
  else None.

Definition RoleType_of_string (s : string) : option RoleType :=
  if s =? "staff" then Some StaffTask
  else if s =? "customer" then Some CustomerTask
  else None.


(** A task document that passed the schema.  Ids are the ObjectId's
    hexadecimal string; [description] is [None] when it was set to null;
    [dueDate] is the date's time value.  The timestamps of the schema are
    left out: no handler reads them. *)
Record Task : Type := mkTask {
  customerId : string;
  customerName : string;
  title : string;
  description : option string;
  dueDate : Z;
  status : Status;
  roleType : RoleType;
  createdBy : string;
  assignedTo : option string;
  assignedName : string;
}.

(** A document of the User collection (models/User.js), the identity
    directory of the task routes. *)
Record UserDoc : Type := mkUserDoc {
  fullName : string;
  email : string;
  role : string;
}.

(** The database: both collections, keyed by [_id]. *)
Record Db : Type := mkDb {
  users : gmap string UserDoc;
  tasks : gmap string Task;
}.

Definition with_tasks (db : Db) (ts : gmap string Task) : Db :=
  mkDb (users db) ts.

(** What Mongoose does when a value is written to a typed path.  The
    library is not part of the repository; the handlers only rely on the
    casts being functions of the value and on a string being kept as it
    is by the String cast.  [None] is a CastError. *)
Class Mongoose : Type := {
  castObjectId : jsval -> option string;
  castString : jsval -> option string;
  castDate : jsval -> option Z;
  castString_JStr : forall s, castString (JStr s) = Some s;
}.

Section TaskSchema.
Context `{Mongoose}.

(** A String path with [required: true, trim: true]: the value is cast,
    trimmed, and refused when nothing is left. *)
Definition required_trimmed (v : jsval) : option string :=
  match v with
  | JUndefined | JNull => None
  | _ => match castString v with
         | Some s => let s' := trim s in if s' =? "" then None else Some s'
         | None => None
         end
  end.

(** [description]: [trim: true, default: ""], not required. *)
Definition set_description (v : jsval) : option (option string) :=
  match v with
  | JUndefined => Some (Some "")
  | JNull => Some None
  | _ => match castString v with
         | Some s => Some (Some (trim s))
         | None => None
         end
  end.

(** [createdBy]: [required: true, trim: true, lowercase: true]. *)
Definition set_createdBy (v : jsval) : option string :=
  match castString v with
  | Some s => let s' := toLowerCase (trim s) in
              if s' =? "" then None else Some s'
  | None => None
  end.

(** [status], [roleType]: the cast string must be one of the enum. *)
Definition set_status (v : jsval) : option Status :=
  match castString v with
  | Some s => Status_of_string s
  | None => None
  end.

Definition set_roleType (v : jsval) : option RoleType :=
  match castString v with
  | Some s => RoleType_of_string s
  | None => None
  end.

(** [assignedName]: [trim: true, default: ""]. *)
Definition set_assignedName (v : jsval) : option string :=
  match castString v with
  | Some s => Some (trim s)
  | None => None
  end.

End TaskSchema.

(** ** TaskLifecycle: routes/task.routes.js *)

(** The fields the create handler reads from [req.body]. *)
Record CreateBody : Type := mkCreateBody {
  body_title : jsval;
  body_description : jsval;
  body_dueDate : jsval;
  body_roleType : jsval;
  body_customerId : jsval;
}.

(** The fields the assign handler reads from [req.body]. *)
Record AssignBody : Type := mkAssignBody {
  requestId : jsval;
  staffId : jsval;
  staffName : jsval;
}.

Section TaskRoutes.
Context `{Mongoose}.

(** [new Task({...})] followed by the validation of [save()]: the
    document, or [None] when a cast or a validator refuses it. *)
Definition new_Task (cid : string) (usr : UserDoc) (user : Claims)
    (body : CreateBody) (isCustomer : bool) : option Task :=
  cname ← required_trimmed (js_or (JStr (fullName usr)) JUndefined);
  ttl ← required_trimmed (body_title body);
  descr ← set_description (body_description body);
  due ← castDate (body_dueDate body);
  rt ← set_roleType
         (js_or (body_roleType body)
                (JStr (if isCustomer then "customer" else "staff")));
  by_ ← set_createdBy (js_or (JStr (user_email user)) (JStr "system@factory.com"));
  Some (mkTask cid cname ttl descr due Pending rt by_ None "").

(** POST /tasks, after [verifyToken]; [newId] is the [_id] Mongoose
    draws for the new document. *)
Definition create (db : Db) (newId : string) (user : Claims) (body : CreateBody)
  : outcome (Db * Task) :=
  let customerId :=
    if role_is user ROLES.CUSTOMER then JStr (user_id user)
    else body_customerId body in
  reject (negb (truthy customerId) || negb (truthy (body_title body))
          || negb (truthy (body_dueDate body))) MissingField ;;;
  cid <~ or_fail (castObjectId customerId) StoreError ;;
  usr <~ or_fail (users db !! cid) NotFound ;;
  let isManagerOrAdmin :=
    role_is user ROLES.ADMIN || role_is user ROLES.MANAGER in
  let isCustomer := role_is user ROLES.CUSTOMER in
  reject (negb isManagerOrAdmin && negb isCustomer) (Auth Forbidden) ;;;
  newTask <~ or_fail (new_Task cid usr user body isCustomer) StoreError ;;
  reject (bool_decide (is_Some (tasks db !! newId))) StoreError ;;;
  Done (with_tasks db (<[newId := newTask]> (tasks db)), newTask).

(** The four assignments of the assign handler and the validation of
    [save()]. *)
Definition assign_fields (task : Task) (staffId staffName : jsval) : option Task :=
  sid ← castObjectId staffId;
  sname ← set_assignedName staffName;
  Some (mkTask (customerId task) (customerName task) (title task)
               (description task) (dueDate task) Assigned StaffTask
               (createdBy task) (Some sid) sname).

Definition assign_handler (db : Db) (body : AssignBody) : outcome (Db * Task) :=
  reject (negb (truthy (requestId body)) || negb (truthy (staffId body))
          || negb (truthy (staffName body))) MissingField ;;;
  k <~ or_fail (castObjectId (requestId body)) StoreError ;;
  task <~ or_fail (tasks db !! k) NotFound ;;
  task' <~ or_fail (assign_fields task (staffId body) (staffName body))
                       StoreError ;;
  Done (with_tasks db (<[k := task']> (tasks db)), task').

(** POST /tasks/assign, after [verifyToken]. *)
Definition assign (db : Db) (user : Claims) (body : AssignBody)
  : outcome (Db * Task) :=
  requireRoles [ROLES.ADMIN; ROLES.MANAGER] (Some user) ;;;
  assign_handler db body.

(** [[ROLES.CUSTOMER, ROLES.STAFF].includes(req.user.role)]. *)
Definition customer_or_staff (user : Claims) : bool :=
  role_is user ROLES.CUSTOMER || role_is user ROLES.STAFF.

(** The [canUpdate] of the status handler. *)
Definition canUpdate (user : Claims) (task : Task) : bool :=
  (role_is user ROLES.CUSTOMER && (customerId task =? user_id user))
  || (role_is user ROLES.STAFF
      && match assignedTo task with
         | Some a => a =? user_id user
         | None => false
         end).

Definition with_status (task : Task) (st : Status) : Task :=
  mkTask (customerId task) (customerName task) (title task)
         (description task) (dueDate task) st (roleType task)
         (createdBy task) (assignedTo task) (assignedName task).

(** PATCH /tasks/:id, after [verifyToken]. *)
Definition updateStatus (db : Db) (user : Claims) (id : string) (newStatus : jsval)
  : outcome (Db * Task) :=
  k <~ or_fail (castObjectId (JStr id)) StoreError ;;
  task <~ or_fail (tasks db !! k) NotFound ;;
  reject (customer_or_staff user && negb (canUpdate user task))
         (Auth Forbidden) ;;;
  reject (customer_or_staff user && negb (strict_eq_str newStatus "completed"))
         (Auth Forbidden) ;;;
  if truthy newStatus then
    st <~ or_fail (set_status newStatus) StoreError ;;
    let task' := with_status task st in
    Done (with_tasks db (<[k := task']> (tasks db)), task')
  else Done (db, task).

End TaskRoutes.

(** ** Sequences of requests *)

(** A request to one of the three mutating task routes, with the claims
    [verifyToken] attached to it. *)
Inductive Request : Type :=
| Create (newId : string) (user : Claims) (body : CreateBody)
| Assign (user : Claims) (body : AssignBody)
| UpdateStatus (user : Claims) (id : string) (newStatus : jsval).

Section Runs.
Context `{Mongoose}.

Definition handle (db : Db) (rq : Request) : outcome (Db * Task) :=
  match rq with
  | Create newId user body => create db newId user body
  | Assign user body => assign db user body
  | UpdateStatus user id newStatus => updateStatus db user id newStatus
  end.

(** The database after a request: a refused request writes nothing. *)
Definition step (db : Db) (rq : Request) : Db :=
  match handle db rq with
  | Done (db', _) => db'
  | Fail _ => db
  end.

Definition run (db : Db) (rqs : list Request) : Db := fold_left step rqs db.

End Runs.



(** ** The properties of the specification, in its words *)

(** The owner of a task, for a status update: the customer whose id is the
    task's [customerId], the staff member whose id is its [assignedTo]. *)
Definition owns (user : Claims) (task : Task) : Prop :=
  (user_role user = Some ROLES.CUSTOMER /\ customerId task = user_id user)
  \/ (user_role user = Some ROLES.STAFF /\ assignedTo task = Some (user_id user)).

(** An elevated actor: admin or manager. *)
Definition elevated (user : Claims) : Prop :=
  user_role user = Some ROLES.ADMIN \/ user_role user = Some ROLES.MANAGER.



(** The text of a header value after its first seven characters, up to
    the next space. *)
Fixpoint until_space (s : string) : string :=
  match s with
  | EmptyString => EmptyString
  | String c r => if Ascii.eqb c " " then EmptyString else String c (until_space r)
  end.

(** ** The other task routes, the token issuer and the admin route *)

Definition RoleType_to_string (rt : RoleType) : string :=
  match rt with
  | StaffTask => "staff"
  | CustomerTask => "customer"
  end.

(** The filter object of a [Task.find]: the paths it constrains, with the
    raw values the handler puts there. *)
Record TaskFilter : Type := mkTaskFilter {
  by_customerId : option string;
  by_assignedTo : option string;
  by_roleType : option string;
}.

(** The filter of GET /tasks/my: [{}], overwritten for a customer, then
    overwritten for a staff member. *)
Definition mine_filter (user : Claims) : TaskFilter :=
  let filter := mkTaskFilter None None None in
  let filter :=
    if role_is user ROLES.CUSTOMER
    then mkTaskFilter (Some (user_id user)) None (Some "customer")
    else filter in
  if role_is user ROLES.STAFF
  then mkTaskFilter None (Some (user_id user)) (Some "staff")
  else filter.

(** The payload [signToken] signs for a user document whose [_id] is [id]
    (routes/auth.routes.js); the [fullName] it also carries is read by no
    middleware and no task route. *)
Definition signToken_payload (id : string) (user : UserDoc) : Claims :=
  mkClaims id (Some (toLowerCase (role user))) (email user).

Section OtherTaskRoutes.
Context `{Mongoose}.

(** The test a filter makes on a document, once its ids are cast; [None]
    is the CastError of a value that is no ObjectId. *)
Definition cast_filter (f : TaskFilter) : option (Task -> bool) :=
  byC ← match by_customerId f with
        | Some raw => k ← castObjectId (JStr raw); Some (fun t => customerId t =? k)
        | None => Some (fun _ => true)
        end;
  byA ← match by_assignedTo f with
        | Some raw => k ← castObjectId (JStr raw);
                      Some (fun t => match assignedTo t with
                                     | Some a => a =? k
                                     | None => false
                                     end)
        | None => Some (fun _ => true)
        end;
  let byR := match by_roleType f with
             | Some rt => fun t => RoleType_to_string (roleType t) =? rt
             | None => fun _ => true
             end in
  Some (fun t => byC t && byA t && byR t).

(** [Task.find(filter)]: the documents that match, keyed by their id.  The
    order of the answer (newest first) is not modelled. *)
Definition find_tasks (db : Db) (f : TaskFilter) : outcome (gmap string Task) :=
  test <~ or_fail (cast_filter f) StoreError ;;
  Done (filter (fun kv => test kv.2 = true) (tasks db)).

(** GET /tasks, after [verifyToken]. *)
Definition listAll (db : Db) (user : Claims) : outcome (gmap string Task) :=
  requireRoles [ROLES.ADMIN; ROLES.MANAGER] (Some user) ;;;
  find_tasks db (mkTaskFilter None None None).

(** GET /tasks/my, after [verifyToken]. *)
Definition listMine (db : Db) (user : Claims) : outcome (gmap string Task) :=
  requireRoles [ROLES.CUSTOMER; ROLES.STAFF] (Some user) ;;;
  find_tasks db (mine_filter user).

(** DELETE /tasks/:id, after [verifyToken]: the database without the
    document, and the document [findByIdAndDelete] found. *)
Definition deleteTask (db : Db) (user : Claims) (id : string)
  : outcome (Db * Task) :=
  requireRoles [ROLES.ADMIN; ROLES.MANAGER] (Some user) ;;;
  k <~ or_fail (castObjectId (JStr id)) StoreError ;;
  deleted <~ or_fail (tasks db !! k) NotFound ;;
  Done (with_tasks db (delete k (tasks db)), deleted).

End OtherTaskRoutes.

(** GET /api/admin/stats (routes/admin.routes.js): [verifyToken], the gate
    called with one array, then the controller, whose answer is left
    out. *)
Definition adminStats_route (jwt_verify : string -> option Claims)
    (authorization : option string) : outcome unit :=
  user <~ verifyToken jwt_verify authorization ;;
  requireRole [JArr [JStr "admin"; JStr "manager"]] (Some user) ;;;
  Done tt.

(** A string without a space. *)
Fixpoint no_space (s : string) : bool :=
  match s with
  | EmptyString => true
  | String c r => negb (Ascii.eqb c " ") && no_space r
  end.

(** An identifier the driver stores as it is written. *)
Definition canonical_id `{Mongoose} (id : string) : Prop :=
  castObjectId (JStr id) = Some id.

(** What may change in a task between two moments: not who it is for, what
    it asks, when it is due or who created it; a staff task stays a staff
    task, and an assignee is replaced but never removed. *)
Definition evolves (t t' : Task) : Prop :=
  customerId t' = customerId t
  /\ customerName t' = customerName t
  /\ title t' = title t
  /\ description t' = description t
  /\ dueDate t' = dueDate t
  /\ createdBy t' = createdBy t
  /\ (roleType t = StaffTask -> roleType t' = StaffTask)
  /\ (is_Some (assignedTo t) -> is_Some (assignedTo t')).

(** Every customer request is unassigned. *)
Definition requests_unassigned (db : Db) : Prop :=
  forall k t, tasks db !! k = Some t -> roleType t = CustomerTask ->
    assignedTo t = None /\ assignedName t = "".

(** ** Expenses: models/Expense.js and routes/expense.routes.js *)

(** An expense document that passed the schema.  [Amount] stands for the
    JavaScript numbers; no route below computes with an amount.  The
    handlers also assign a [deletedAt], which is no path of the schema and
    is therefore never stored. *)
Record Expense (Amount : Type) : Type := mkExpense {
  exp_category : string;
  exp_title : string;
  exp_amount : Amount;
  exp_description : option string;
  exp_date : Z;
  exp_createdBy : string;
  isDeleted : bool;
  deletedBy : string;
}.
Arguments mkExpense {Amount}.
Arguments exp_category {Amount}.
Arguments exp_title {Amount}.
Arguments exp_amount {Amount}.
Arguments exp_description {Amount}.
Arguments exp_date {Amount}.
Arguments exp_createdBy {Amount}.
Arguments isDeleted {Amount}.
Arguments deletedBy {Amount}.

(** The filter of a query on expenses: the raw [_id], the [isDeleted] it
    asks for, and whether it carries a truthy [includeDeleted]. *)
Record ExpenseFilter : Type := mkExpenseFilter {
  by_id : option string;
  by_isDeleted : option bool;
  includeDeleted : bool;
}.

(** [expenseSchema.pre(/^find/, ..)]: unless the filter carries
    [includeDeleted], [this.where({ isDeleted: false })] is merged into it,
    over whatever it said about [isDeleted]. *)
Definition pre_find (f : ExpenseFilter) : ExpenseFilter :=
  if negb (includeDeleted f)
  then mkExpenseFilter (by_id f) (Some false) (includeDeleted f)
  else f.

(** The requests to the three routes that address one expense. *)
Inductive ExpenseRequest : Type :=
| SoftDelete (user : Claims) (id : string)
| Restore (user : Claims) (id : string)
| HardDelete (user : Claims) (id : string).

Section ExpenseRoutes.
Context `{Mongoose}.
Context {Amount : Type}.

Definition with_deletion (e : Expense Amount) (deleted : bool) (by_ : string)
  : Expense Amount :=
  mkExpense (exp_category e) (exp_title e) (exp_amount e) (exp_description e)
            (exp_date e) (exp_createdBy e) deleted by_.

(** The test a filter makes on a document and its [_id]. *)
Definition cast_expense_filter (f : ExpenseFilter)
  : option (string * Expense Amount -> bool) :=
  byId ← match by_id f with
         | Some raw => k ← castObjectId (JStr raw); Some (fun kv => fst kv =? k)
         | None => Some (fun _ => true)
         end;
  let byDeleted := match by_isDeleted f with
                   | Some b => fun kv => Bool.eqb (isDeleted (snd kv)) b
                   | None => fun _ => true
                   end in
  Some (fun kv : string * Expense Amount => byId kv && byDeleted kv).

(** A [find] or [findOne] on the model: the hook runs first.  The order of
    the answer is not modelled. *)
Definition Expense_find (coll : gmap string (Expense Amount)) (f : ExpenseFilter)
  : outcome (gmap string (Expense Amount)) :=
  test <~ or_fail (cast_expense_filter (pre_find f)) StoreError ;;
  Done (filter (fun kv => test kv = true) coll).

(** [Expense.findById(id)], a [findOne] on [_id]: the document and its
    key, or [None] for null. *)
Definition Expense_findById (coll : gmap string (Expense Amount)) (id : string)
  : outcome (option (string * Expense Amount)) :=
  k <~ or_fail (castObjectId (JStr id)) StoreError ;;
  found <~ Expense_find coll (mkExpenseFilter (Some id) None false) ;;
  Done (match found !! k with
        | Some e => Some (k, e)
        | None => None
        end).

Definition expense_gate (user : Claims) : outcome unit :=
  requireRoles [ROLES.ADMIN; ROLES.MANAGER] (Some user).



(** DELETE /expenses/:id: the collection after the soft delete.
    [deletedBy] has [trim: true]. *)
Definition softDelete (coll : gmap string (Expense Amount)) (user : Claims)
    (id : string) : outcome (gmap string (Expense Amount)) :=
  expense_gate user ;;;
  found <~ Expense_findById coll id ;;
  ke <~ or_fail found NotFound ;;
  let by_ := if user_email user =? "" then "admin@factory.com"
             else user_email user in
  Done (<[fst ke := with_deletion (snd ke) true (trim by_)]> coll).

(** PATCH /expenses/:id/restore. *)
Definition restore (coll : gmap string (Expense Amount)) (user : Claims)
    (id : string) : outcome (gmap string (Expense Amount)) :=
  expense_gate user ;;;
  found <~ Expense_findById coll id ;;
  ke <~ or_fail found NotFound ;;
  Done (<[fst ke := with_deletion (snd ke) false ""]> coll).

(** DELETE /expenses/:id/hard: [findById], then [deleteOne({ _id })]. *)
Definition hardDelete (coll : gmap string (Expense Amount)) (user : Claims)
    (id : string) : outcome (gmap string (Expense Amount)) :=
  expense_gate user ;;;
  found <~ Expense_findById coll id ;;
  ke <~ or_fail found NotFound ;;
  k <~ or_fail (castObjectId (JStr id)) StoreError ;;
  Done (delete k coll).

Definition handle_expense (coll : gmap string (Expense Amount))
    (rq : ExpenseRequest) : outcome (gmap string (Expense Amount)) :=
  match rq with
  | SoftDelete user id => softDelete coll user id
  | Restore user id => restore coll user id
  | HardDelete user id => hardDelete coll user id
  end.

Definition step_expense (coll : gmap string (Expense Amount))
    (rq : ExpenseRequest) : gmap string (Expense Amount) :=
  match handle_expense coll rq with
  | Done coll' => coll'
  | Fail _ => coll
  end.

Definition run_expenses (coll : gmap string (Expense Amount))
    (rqs : list ExpenseRequest) : gmap string (Expense Amount) :=
  fold_left step_expense rqs coll.

End ExpenseRoutes.

(** ** A concrete driver and database, for examples *)

Definition is_hex (c : ascii) : bool :=
  let n := N_of_ascii c in
  (((48 <=? n) && (n <=? 57)) || ((65 <=? n) && (n <=? 70))
   || ((97 <=? n) && (n <=? 102)))%N.

Fixpoint all_hex (s : string) : bool :=
  match s with
  | EmptyString => true
  | String c r => is_hex c && all_hex r
  end.

(** A driver that takes 24 hexadecimal digits for an ObjectId, strings and
    numbers for a String, and a time value for a Date. *)
Definition hex_driver : Mongoose.
Proof.
  refine {|
    castObjectId v :=
      match v with
      | JStr s => if (String.length s =? 24)%nat && all_hex s
                  then Some (toLowerCase s) else None
      | _ => None
      end;
    castString v :=
      match v with
      | JStr s => Some s
      | JNum z => Some (pretty z)
      | JBool b => Some (if b then "true" else "false")
      | _ => None
      end;
    castDate v :=
      match v with
      | JNum z => Some z
      | _ => None
      end |}.
  reflexivity.
Defined.

Module Sample.

Definition amina_id : string := "64b7f0a1c2d3e4f501234501".
Definition bilal_id : string := "64b7f0a1c2d3e4f501234502".
Definition sara_id : string := "64b7f0a1c2d3e4f501234503".
Definition tariq_id : string := "64b7f0a1c2d3e4f501234504".
Definition task_id : string := "64b7f0a1c2d3e4f5012345aa".

(** A customer, a manager and two staff members. *)
Definition amina : Claims := mkClaims amina_id (Some "customer") "amina@example.com".
Definition bilal : Claims := mkClaims bilal_id (Some "manager") "bilal@example.com".
Definition sara : Claims := mkClaims sara_id (Some "staff") "sara@example.com".
Definition tariq : Claims := mkClaims tariq_id (Some "staff") "tariq@example.com".

Definition directory : gmap string UserDoc :=
  <[amina_id := mkUserDoc "Amina" "amina@example.com" "customer"]>
  (<[bilal_id := mkUserDoc "Bilal" "bilal@example.com" "manager"]>
  (<[sara_id := mkUserDoc "Sara" "sara@example.com" "staff"]>
  (<[tariq_id := mkUserDoc "Tariq" "tariq@example.com" "staff"]> ∅))).

Definition db0 : Db := mkDb directory ∅.

(** The request of the end-to-end scenario: a pickup, due 2025-01-01. *)
Definition pickup : CreateBody :=
  mkCreateBody (JStr "Pickup") JUndefined (JNum 1735689600000) JUndefined JUndefined.

Definition to_sara (name : string) : AssignBody :=
  mkAssignBody (JStr task_id) (JStr sara_id) (JStr name).


(** The same request with a customer id that is not the caller's. *)
Definition pickup_for_tariq : CreateBody :=
  mkCreateBody (JStr "Pickup") JUndefined (JNum 1735689600000) JUndefined
               (JStr tariq_id).

(** Amina's request as stored, then handed to Sara, then completed. *)
Definition requested : Task :=
  mkTask amina_id "Amina" "Pickup" (Some "") 1735689600000 Pending
         CustomerTask "amina@example.com" None "".

Definition handed (name : string) : Task :=
  mkTask amina_id "Amina" "Pickup" (Some "") 1735689600000 Assigned
         StaffTask "amina@example.com" (Some sara_id) name.

Definition finished : Task :=
  mkTask amina_id "Amina" "Pickup" (Some "") 1735689600000 Completed
         StaffTask "amina@example.com" (Some sara_id) "Sara".


Definition db_with (t : Task) : Db := mkDb directory {[task_id := t]}.


(** A verifier that knows no token. *)
Definition reject_all : string -> option Claims := fun _ => None.

(** A verifier that knows one token, issued to a user whose role was
    stored capitalised. *)
Definition one_token : string -> option Claims :=
  fun t => if t =? "tok.en.1" then Some (mkClaims bilal_id (Some "Manager") "bilal@example.com")
           else None.

End Sample.

(** ** More sample data *)

Module MoreSamples.
Import Sample.

(** Sara's user document, with the role as an older code path stored it,
    and a verifier that knows the token issued for it. *)
Definition sara_doc : UserDoc := mkUserDoc "Sara" "sara@example.com" "Staff".

Definition issued : string -> option Claims :=
  fun t => if t =? "tok.en.2" then Some (signToken_payload sara_id sara_doc)
           else None.

(** Claims that did not go through [verifyToken], and claims without a
    role. *)
Definition sara_capital : Claims := mkClaims sara_id (Some "Staff") "sara@example.com".
Definition nobody : Claims := mkClaims tariq_id None "".


Definition pickup_as_staff : CreateBody :=
  mkCreateBody (JStr "Pickup") JUndefined (JNum 1735689600000) (JStr "staff")
               JUndefined.

Definition requested_as_staff : Task :=
  mkTask amina_id "Amina" "Pickup" (Some "") 1735689600000 Pending
         StaffTask "amina@example.com" None "".

(** An assignment without a staff name. *)
Definition nameless : AssignBody :=
  mkAssignBody (JStr task_id) (JStr sara_id) (JStr "").

(** Two expenses, the second one soft-deleted by Bilal. *)
Definition rent_id : string := "64b7f0a1c2d3e4f5012345e1".
Definition fuel_id : string := "64b7f0a1c2d3e4f5012345e2".

Definition rent : Expense Z :=
  mkExpense "Monthly" "Rent" 1200%Z (Some "") 1735689600000 "bilal@example.com"
            false "".

Definition fuel : Expense Z :=
  mkExpense "Daily" "Fuel" 40%Z (Some "") 1735689600000 "bilal@example.com"
            true "bilal@example.com".

Definition ledger : gmap string (Expense Z) :=
  <[rent_id := rent]> (<[fuel_id := fuel]> ∅).

End MoreSamples.

(** * Properties *)

(** ** Strings and lists *)

Lemma includes_elem_of (x : string) (l : list string) :
  includes x l = true <-> x ∈ l.
Proof.
  induction l as [|y l IH]; simpl.
  - split; [discriminate | intros Hx; inversion Hx].
  - rewrite orb_true_iff, IH, String.eqb_eq, elem_of_cons. intuition congruence.
Qed.

Lemma normalize_allowed_strings (roles : list string) :
  normalize_allowed (JStr <$> roles) = Some (toLowerCase <$> roles).
Proof.
  induction roles as [|r roles IH]; [reflexivity|].
  rewrite !fmap_cons. cbn [normalize_allowed]. now rewrite IH.
Qed.

Lemma split_head (r : string) : split " " r !! 0%nat = Some (until_space r).
Proof.
  induction r as [|c r IH]; simpl; [reflexivity|].
  destruct (Ascii.eqb c " "); [reflexivity|].
  destruct (split " " r) as [|h t]; [discriminate|].
  simpl in *. congruence.
Qed.

Lemma startsWith_app (p s : string) :
  startsWith p s = true -> exists r, s = p ++ r.
Proof.
  unfold startsWith. revert s.
  induction p as [|c p IH]; intros s Hs.
  - now exists s.
  - destruct s as [|d s]; simpl in Hs; [discriminate|].
    destruct (ascii_dec c d) as [->|]; [|discriminate].
    destruct (IH _ Hs) as [r ->]. now exists r.
Qed.

Lemma prefix_empty (s : string) : String.prefix "" s = true.
Proof. now destruct s. Qed.

Lemma bearer_token_prefixed (r : string) :
  bearer_token ("Bearer " ++ r) = Some (until_space r).
Proof.
  unfold bearer_token, startsWith.
  change ("Bearer " ++ r) with (String "B" (String "e" (String "a" (String "r"
    (String "e" (String "r" (String " " r))))))).
  cbn -[until_space split]. rewrite prefix_empty.
  cbn -[until_space]. apply split_head.
Qed.

Lemma bearer_token_other (h : string) :
  startsWith "Bearer " h = false -> bearer_token h = None.
Proof. unfold bearer_token. now intros ->. Qed.

Example toLowerCase_Manager : toLowerCase "Manager" = "manager".
Proof. reflexivity. Qed.

Example trim_both_ends : trim "  in progress  " = "in progress".
Proof. reflexivity. Qed.

Example split_header : split " " "Bearer a.b.c" = ["Bearer"; "a.b.c"].
Proof. reflexivity. Qed.

Example split_double_space : split " " "Bearer  a.b.c" = ["Bearer"; ""; "a.b.c"].
Proof. reflexivity. Qed.

(** The enum validator accepts the four names of the schema. *)
Lemma Status_of_to_string (st : Status) :
  Status_of_string (Status_to_string st) = Some st.
Proof. destruct st; reflexivity. Qed.

(** ** CredentialVerifier *)

Section CredentialVerifierFacts.
Variable jwt_verify : string -> option Claims.

Lemma verifyToken_prefixed (r : string) :
  verifyToken jwt_verify (Some ("Bearer " ++ r)) =
    if until_space r =? "" then Fail (Auth Missing)
    else match jwt_verify (until_space r) with
         | Some decoded => Done (normalize_role decoded)
         | None => Fail (Auth Invalid)
         end.
Proof.
  unfold verifyToken. cbn [default option.from_option id].
  rewrite bearer_token_prefixed.
  destruct (until_space r); reflexivity.
Qed.

Lemma verifyToken_no_header : verifyToken jwt_verify None = Fail (Auth Missing).
Proof. reflexivity. Qed.

(** What [verifyToken] hands on has a lower-case role: lowering it again
    changes nothing. *)
Lemma lower_ascii_idem (c : ascii) : lower_ascii (lower_ascii c) = lower_ascii c.
Proof.
  destruct c as [[] [] [] [] [] [] [] []]; reflexivity.
Qed.

Lemma toLowerCase_idem (s : string) : toLowerCase (toLowerCase s) = toLowerCase s.
Proof.
  induction s as [|c s IH]; simpl; [reflexivity|].
  unfold toLowerCase in *. simpl. now rewrite lower_ascii_idem, IH.
Qed.

Lemma normalize_role_idem (c : Claims) :
  normalize_role (normalize_role c) = normalize_role c.
Proof.
  unfold normalize_role. destruct c as [i [r|] e]; simpl; [|reflexivity].
  destruct (r =? "") eqn:Hr; simpl; [now rewrite Hr|].
  destruct (toLowerCase r =? ""); [reflexivity|]. now rewrite toLowerCase_idem.
Qed.

End CredentialVerifierFacts.

(** C5, in the form the code satisfies: a header without the case-sensitive prefix, or whose
    text between the prefix and the next space is empty, is answered
    Missing; when that text is not empty and the verifier refuses it the
    answer is Invalid; claims are only ever produced from a token the
    verifier accepted. *)
Theorem verifyToken_refusals (jwt_verify : string -> option Claims) (h : string) :
  (startsWith "Bearer " h = false ->
     verifyToken jwt_verify (Some h) = Fail (Auth Missing))
  /\ (forall r, h = "Bearer " ++ r ->
        (until_space r = "" ->
           verifyToken jwt_verify (Some h) = Fail (Auth Missing))
        /\ (until_space r <> "" -> jwt_verify (until_space r) = None ->
              verifyToken jwt_verify (Some h) = Fail (Auth Invalid))
        /\ (forall c, verifyToken jwt_verify (Some h) = Done c ->
              exists d, jwt_verify (until_space r) = Some d /\ c = normalize_role d)).
Proof.
  split.
  - intros Hp. unfold verifyToken. cbn [default option.from_option id].
    now rewrite (bearer_token_other _ Hp).
  - intros r ->. rewrite verifyToken_prefixed.
    destruct (String.eqb_spec (until_space r) "") as [He|He].
    + repeat split; [congruence | discriminate].
    + repeat split; [congruence | now intros _ -> |].
      intros c. destruct (jwt_verify (until_space r)) as [d|]; [|discriminate].
      intros [= <-]. now exists d.
Qed.

(** ** RoleGate *)

Lemma requireRoles_with_role (allowed : list string) (c : Claims) (r : string) :
  user_role c = Some r -> r <> "" ->
  requireRoles allowed (Some c) =
    if includes (toLowerCase r) (toLowerCase <$> allowed) then Done tt
    else Fail (Auth Forbidden).
Proof.
  intros Hr Hne. unfold requireRoles, requireRole.
  rewrite Hr, normalize_allowed_strings.
  destruct r; [contradiction | reflexivity].
Qed.


(** An array passed as the one argument of the gate is an element of the
    rest parameter, and lower-casing it throws. *)
Lemma requireRole_array_throws (roles : list jsval) (c : Claims) (r : string) :
  user_role c = Some r -> r <> "" ->
  requireRole [JArr roles] (Some c) = Fail Uncaught.
Proof.
  intros Hr Hne. unfold requireRole. rewrite Hr.
  destruct r; [contradiction | reflexivity].
Qed.

(** C9: the call of routes/admin.routes.js, [requireRole(["admin",
    "manager"])], throws for a manager, whom the same roles passed one by
    one let through. *)
Theorem requireRole_array_differs :
  requireRole [JStr "admin"; JStr "manager"] (Some Sample.bilal) = Done tt
  /\ requireRole [JArr [JStr "admin"; JStr "manager"]] (Some Sample.bilal)
     = Fail Uncaught.
Proof. split; reflexivity. Qed.

(** ** Outcomes *)

Lemma obind_Done {A B : Type} (m : outcome A) (k : A -> outcome B) (b : B) :
  obind m k = Done b <-> exists a, m = Done a /\ k a = Done b.
Proof.
  destruct m as [a|f]; simpl.
  - split; [now exists a | now intros [a' [[= ->] Hk]]].
  - split; [discriminate | now intros [a' [? _]]].
Qed.

Lemma reject_Done (bad : bool) (f : Failure) (u : unit) :
  reject bad f = Done u <-> bad = false.
Proof. destruct bad, u; simpl; split; congruence. Qed.

Lemma or_fail_Done {A : Type} (o : option A) (f : Failure) (a : A) :
  or_fail o f = Done a <-> o = Some a.
Proof. destruct o; simpl; split; congruence. Qed.

Ltac invert_outcome :=
  repeat match goal with
    | H : obind _ _ = Done _ |- _ =>
        apply obind_Done in H; destruct H as (? & ? & H)
    | H : reject _ _ = Done _ |- _ => apply reject_Done in H
    | H : or_fail _ _ = Done _ |- _ => apply or_fail_Done in H
    | H : Done _ = Done _ |- _ => injection H as H
    end.

(** ** TaskLifecycle *)

Lemma role_is_eq (user : Claims) (r : string) :
  role_is user r = true <-> user_role user = Some r.
Proof.
  unfold role_is. destruct (user_role user) as [r'|].
  - rewrite String.eqb_eq. split; congruence.
  - split; discriminate.
Qed.

Lemma customer_or_staff_roles (user : Claims) :
  customer_or_staff user = true <->
  user_role user = Some ROLES.CUSTOMER \/ user_role user = Some ROLES.STAFF.
Proof. unfold customer_or_staff. now rewrite orb_true_iff, !role_is_eq. Qed.

Lemma elevated_not_customer_or_staff (user : Claims) :
  elevated user -> customer_or_staff user = false.
Proof. unfold customer_or_staff, role_is. now intros [-> | ->]. Qed.

Lemma canUpdate_owns (user : Claims) (task : Task) :
  canUpdate user task = true <-> owns user task.
Proof.
  unfold canUpdate, owns.
  rewrite orb_true_iff, !andb_true_iff, !role_is_eq, String.eqb_eq.
  destruct (assignedTo task) as [a|].
  - rewrite String.eqb_eq. split; (intros [[? ?]|[? ?]]; [left|right]; split; congruence).
  - split; (intros [[? ?]|[? ?]]; [left; split; congruence | congruence]).
Qed.

Lemma strict_eq_str_eq (v : jsval) (s : string) :
  strict_eq_str v s = true <-> v = JStr s.
Proof.
  destruct v; simpl; try (split; congruence).
  rewrite String.eqb_eq. split; congruence.
Qed.

Section TaskFacts.
Context `{Mongoose}.

Lemma set_status_completed : set_status (JStr "completed") = Some Completed.
Proof. unfold set_status. now rewrite castString_JStr. Qed.

Lemma new_Task_fresh cid usr user body isCustomer t :
  new_Task cid usr user body isCustomer = Some t ->
  customerId t = cid /\ status t = Pending /\ assignedTo t = None
  /\ assignedName t = "".
Proof.
  unfold new_Task. intros Ht. simplify_option_eq. repeat split.
Qed.

(** What a successful creation did. *)
Lemma create_Done db newId user body db' t :
  create db newId user body = Done (db', t) ->
  exists cid usr,
    castObjectId (if role_is user ROLES.CUSTOMER then JStr (user_id user)
                  else body_customerId body) = Some cid
    /\ users db !! cid = Some usr
    /\ new_Task cid usr user body (role_is user ROLES.CUSTOMER) = Some t
    /\ tasks db !! newId = None
    /\ db' = with_tasks db (<[newId := t]> (tasks db)).
Proof.
  unfold create. intros Hc. invert_outcome.
  match goal with Hd : bool_decide _ = false |- _ =>
    apply bool_decide_eq_false in Hd; rewrite <- eq_None_not_Some in Hd end.
  simplify_eq. eauto 10.
Qed.

(** What a successful assignment did. *)
Lemma assign_Done db user body db' t' :
  assign db user body = Done (db', t') ->
  exists k task,
    castObjectId (requestId body) = Some k
    /\ tasks db !! k = Some task
    /\ assign_fields task (staffId body) (staffName body) = Some t'
    /\ db' = with_tasks db (<[k := t']> (tasks db)).
Proof.
  unfold assign, assign_handler. intros Ha. invert_outcome.
  simplify_eq. eauto 10.
Qed.

Lemma assign_fields_Some task sid sname t' :
  assign_fields task sid sname = Some t' ->
  status t' = Assigned /\ roleType t' = StaffTask /\ is_Some (assignedTo t').
Proof.
  unfold assign_fields. intros Ht. simplify_option_eq. repeat split. eauto.
Qed.

(** The status handler once the task is found. *)
Lemma updateStatus_found db user id newStatus k task :
  castObjectId (JStr id) = Some k -> tasks db !! k = Some task ->
  updateStatus db user id newStatus =
    if customer_or_staff user && negb (canUpdate user task)
    then Fail (Auth Forbidden)
    else if customer_or_staff user && negb (strict_eq_str newStatus "completed")
    then Fail (Auth Forbidden)
    else if truthy newStatus then
      match set_status newStatus with
      | Some st => Done (with_tasks db (<[k := with_status task st]> (tasks db)),
                         with_status task st)
      | None => Fail StoreError
      end
    else Done (db, task).
Proof.
  intros Hk Ht. unfold updateStatus. rewrite Hk. simpl. rewrite Ht. simpl.
  destruct (customer_or_staff user && negb (canUpdate user task)); simpl;
    [reflexivity|].
  destruct (customer_or_staff user && negb (strict_eq_str newStatus "completed"));
    simpl; [reflexivity|].
  destruct (truthy newStatus); [|reflexivity].
  destruct (set_status newStatus); reflexivity.
Qed.

(** What a successful status update did. *)
Lemma updateStatus_Done db user id newStatus db' t' :
  updateStatus db user id newStatus = Done (db', t') ->
  exists k task,
    castObjectId (JStr id) = Some k
    /\ tasks db !! k = Some task
    /\ (customer_or_staff user = true ->
          canUpdate user task = true /\ newStatus = JStr "completed")
    /\ ((truthy newStatus = false /\ db' = db /\ t' = task)
        \/ (exists st, set_status newStatus = Some st
              /\ t' = with_status task st
              /\ db' = with_tasks db (<[k := t']> (tasks db)))).
Proof.
  intros Hu.
  destruct (castObjectId (JStr id)) as [k|] eqn:Hk;
    [|unfold updateStatus in Hu; rewrite Hk in Hu; discriminate].
  destruct (tasks db !! k) as [task|] eqn:Ht;
    [|unfold updateStatus in Hu; rewrite Hk in Hu; simpl in Hu;
      rewrite Ht in Hu; discriminate].
  rewrite (updateStatus_found _ _ _ _ _ _ Hk Ht) in Hu.
  exists k, task. split; [reflexivity|]. split; [exact Ht|].
  destruct (customer_or_staff user); simpl in Hu.
  - destruct (canUpdate user task); simpl in Hu; [|discriminate].
    destruct (strict_eq_str newStatus "completed") eqn:Hs; simpl in Hu;
      [|discriminate].
    apply strict_eq_str_eq in Hs. subst newStatus. simpl in Hu.
    split; [auto|]. right.
    destruct (set_status (JStr "completed")) as [st|]; [|discriminate].
    injection Hu as <- <-. eauto.
  - split; [discriminate|].
    destruct (truthy newStatus).
    + right. destruct (set_status newStatus) as [st|]; [|discriminate].
      injection Hu as <- <-. eauto.
    + left. injection Hu as <- <-. auto.
Qed.

End TaskFacts.

Section TaskClaims.
Context `{Mongoose}.

(** C1: on an existing task, a status update asked by a customer or a
    staff member succeeds only if the actor owns the task and asks for
    "completed"; without ownership the answer is Forbidden whatever is
    asked, and with ownership it is Forbidden for anything else than
    "completed". *)
Theorem updateStatus_customer_staff db user id newStatus k task :
  castObjectId (JStr id) = Some k -> tasks db !! k = Some task ->
  user_role user = Some ROLES.CUSTOMER \/ user_role user = Some ROLES.STAFF ->
  ((exists r, updateStatus db user id newStatus = Done r) ->
     owns user task /\ newStatus = JStr "completed")
  /\ (~ owns user task ->
        updateStatus db user id newStatus = Fail (Auth Forbidden))
  /\ (owns user task -> newStatus <> JStr "completed" ->
        updateStatus db user id newStatus = Fail (Auth Forbidden)).
Proof.
  intros Hk Ht Hrole. apply customer_or_staff_roles in Hrole.
  rewrite (updateStatus_found _ _ _ _ _ _ Hk Ht), Hrole. simpl.
  pose proof (canUpdate_owns user task) as Hown.
  pose proof (strict_eq_str_eq newStatus "completed") as Hst.
  destruct (canUpdate user task); simpl.
  - destruct (strict_eq_str newStatus "completed"); simpl.
    + split; [tauto|]. split; [tauto|]. intros _ Hne. destruct Hne. tauto.
    + split; [now intros [r Hr]|]. split; reflexivity.
  - split; [now intros [r Hr]|]. split; [reflexivity|].
    intros Ho. apply Hown in Ho. discriminate.
Qed.

(** The other half of the rule: the owner who asks for "completed" gets
    it. *)
Lemma updateStatus_owner_completes db user id k task :
  castObjectId (JStr id) = Some k -> tasks db !! k = Some task ->
  owns user task ->
  updateStatus db user id (JStr "completed") =
    Done (with_tasks db (<[k := with_status task Completed]> (tasks db)),
          with_status task Completed).
Proof.
  intros Hk Ht Ho. rewrite (updateStatus_found _ _ _ _ _ _ Hk Ht).
  apply canUpdate_owns in Ho. rewrite Ho, set_status_completed. simpl.
  now rewrite !andb_false_r.
Qed.

(** C8: a successful status update leaves every field of the task but
    [status] as it was; the stored document is the returned one, and no
    other document is touched. *)
Theorem updateStatus_frame db user id newStatus db' t' k task :
  castObjectId (JStr id) = Some k -> tasks db !! k = Some task ->
  updateStatus db user id newStatus = Done (db', t') ->
  customerId t' = customerId task
  /\ customerName t' = customerName task
  /\ title t' = title task
  /\ description t' = description task
  /\ dueDate t' = dueDate task
  /\ roleType t' = roleType task
  /\ createdBy t' = createdBy task
  /\ assignedTo t' = assignedTo task
  /\ assignedName t' = assignedName task
  /\ tasks db' !! k = Some t'
  /\ (forall k', k' <> k -> tasks db' !! k' = tasks db !! k')
  /\ users db' = users db.
Proof.
  intros Hk Ht Hu. apply updateStatus_Done in Hu.
  destruct Hu as (k0 & task0 & Hk0 & Ht0 & _ & Hcase).
  assert (k0 = k) by congruence. subst k0.
  assert (task0 = task) by congruence. subst task0.
  destruct Hcase as [(_ & -> & ->) | (st & _ & -> & ->)].
  - repeat split; auto.
  - simpl. repeat split.
    + apply lookup_insert_eq.
    + intros k' Hne. now apply lookup_insert_ne.
Qed.

(** C10: for an admin or a manager, a status update whose new status is
    missing, empty or otherwise falsy succeeds and writes nothing: the
    answer carries the task as it was. *)
Theorem updateStatus_falsy_noop db user id newStatus k task :
  castObjectId (JStr id) = Some k -> tasks db !! k = Some task ->
  elevated user -> truthy newStatus = false ->
  updateStatus db user id newStatus = Done (db, task).
Proof.
  intros Hk Ht He Hf. rewrite (updateStatus_found _ _ _ _ _ _ Hk Ht).
  now rewrite (elevated_not_customer_or_staff _ He), Hf.
Qed.

Lemma requireRoles_elevated user :
  elevated user -> requireRoles [ROLES.ADMIN; ROLES.MANAGER] (Some user) = Done tt.
Proof. unfold requireRoles, requireRole. now intros [-> | ->]. Qed.


(** C3: a task a customer creates has the customer's own id for
    [customerId], whatever the payload says; the payload's [customerId] is
    the one stored only when the actor is not a customer. *)
Theorem create_customerId db newId user body db' t :
  create db newId user body = Done (db', t) ->
  (user_role user = Some ROLES.CUSTOMER ->
     castObjectId (JStr (user_id user)) = Some (customerId t))
  /\ (user_role user <> Some ROLES.CUSTOMER ->
        castObjectId (body_customerId body) = Some (customerId t)).
Proof.
  intros Hc. apply create_Done in Hc.
  destruct Hc as (cid & usr & Hcid & _ & Hnew & _ & _).
  apply new_Task_fresh in Hnew. destruct Hnew as (-> & _).
  split; intros Hr.
  - apply role_is_eq in Hr. now rewrite Hr in Hcid.
  - destruct (role_is user ROLES.CUSTOMER) eqn:Hri; [|assumption].
    apply role_is_eq in Hri. contradiction.
Qed.

End TaskClaims.

(** ** Sequences of requests *)

Section RunFacts.
Context `{Mongoose}.

Lemma run_cons db rq rqs : run db (rq :: rqs) = run (step db rq) rqs.
Proof. reflexivity. Qed.







End RunFacts.

(** * Further properties of the pipeline *)

(** ** CredentialVerifier and the token issuer *)

Lemma until_space_no_space (t : string) : no_space t = true -> until_space t = t.
Proof.
  induction t as [|c t IH]; simpl; [reflexivity|].
  destruct (Ascii.eqb c " "); simpl; [discriminate|].
  intros Ht. now rewrite IH.
Qed.

Lemma until_space_app (t rest : string) :
  no_space t = true -> until_space (t ++ String " " rest) = t.
Proof.
  induction t as [|c t IH]; simpl; [reflexivity|].
  destruct (Ascii.eqb c " "); simpl; [discriminate|].
  intros Ht. now rewrite IH.
Qed.

Lemma verifyToken_cases (jwt_verify : string -> option Claims) (h : option string) :
  verifyToken jwt_verify h = Fail (Auth Missing)
  \/ verifyToken jwt_verify h = Fail (Auth Invalid)
  \/ exists d, verifyToken jwt_verify h = Done (normalize_role d).
Proof.
  unfold verifyToken.
  destruct (bearer_token (default "" h)) as [[|c tok]|]; [now left | | now left].
  destruct (jwt_verify (String c tok)) as [d|]; [|now right; left].
  right; right. now exists d.
Qed.

Lemma toLowerCase_empty (r : string) : toLowerCase r = "" <-> r = "".
Proof. destruct r; unfold toLowerCase; simpl; split; congruence. Qed.

Lemma normalize_role_lower (d : Claims) (r : string) :
  user_role (normalize_role d) = Some r -> toLowerCase r = r.
Proof.
  unfold normalize_role. destruct d as [i [r0|] e]; simpl; [|discriminate].
  destruct (String.eqb_spec r0 ""); simpl.
  - intros [= <-]. now subst r0.
  - intros [= <-]. apply toLowerCase_idem.
Qed.

Lemma normalize_signToken_payload (id : string) (u : UserDoc) :
  normalize_role (signToken_payload id u) = signToken_payload id u.
Proof.
  unfold normalize_role, signToken_payload. simpl.
  destruct (toLowerCase (role u) =? ""); [reflexivity|].
  now rewrite toLowerCase_idem.
Qed.

(** X1: what follows the token is ignored: a header with more text after
    a space behind the token is treated as the header that ends with the
    token. *)
Theorem verifyToken_ignores_trailing (jwt_verify : string -> option Claims)
    (t rest : string) :
  no_space t = true ->
  verifyToken jwt_verify (Some ("Bearer " ++ t ++ String " " rest))
  = verifyToken jwt_verify (Some ("Bearer " ++ t)).
Proof.
  intros Ht. rewrite !verifyToken_prefixed.
  now rewrite (until_space_app _ _ Ht), (until_space_no_space _ Ht).
Qed.

(** X2: the claims [verifyToken] attaches carry a role in lower case, and
    the id and the email of the decoded payload untouched. *)
Theorem verifyToken_claims_normalized (jwt_verify : string -> option Claims)
    (h : option string) (c : Claims) :
  verifyToken jwt_verify h = Done c ->
  (forall r, user_role c = Some r -> toLowerCase r = r)
  /\ exists tok d, jwt_verify tok = Some d
       /\ user_id c = user_id d /\ user_email c = user_email d.
Proof.
  unfold verifyToken.
  destruct (bearer_token (default "" h)) as [[|a tok]|]; try discriminate.
  destruct (jwt_verify (String a tok)) as [d|] eqn:Hd; [|discriminate].
  intros [= <-]. split.
  - intros r. apply normalize_role_lower.
  - exists (String a tok), d. split; [assumption|].
    unfold normalize_role. destruct d as [i [r|] e]; simpl; [|auto].
    destruct (r =? ""); auto.
Qed.

(** X3: a token that decodes to the payload [signToken] signs for a user
    is answered with exactly that payload: the lower-casing of
    [verifyToken] finds nothing to change. *)
Theorem verifyToken_issued_token (jwt_verify : string -> option Claims)
    (tok id : string) (u : UserDoc) :
  tok <> "" -> no_space tok = true ->
  jwt_verify tok = Some (signToken_payload id u) ->
  verifyToken jwt_verify (Some ("Bearer " ++ tok)) = Done (signToken_payload id u).
Proof.
  intros Hne Hns Hv. rewrite verifyToken_prefixed, (until_space_no_space _ Hns).
  destruct (String.eqb_spec tok ""); [contradiction|].
  now rewrite Hv, normalize_signToken_payload.
Qed.

(** ** RoleGate *)

Lemma normalize_allowed_None (args : list jsval) :
  normalize_allowed args = None <-> exists v, v ∈ args /\ forall s, v <> JStr s.
Proof.
  induction args as [|v args IH]; simpl.
  - split; [discriminate | intros (v & Hv & _); inversion Hv].
  - destruct v as [| | b | z | s | l];
      try (split; [intros _; eexists; split; [apply list_elem_of_here | discriminate]
                  | reflexivity]).
    destruct (normalize_allowed args) as [l|].
    + split; [discriminate|]. intros (v & Hv & Hns).
      apply elem_of_cons in Hv. destruct Hv as [->|Hv]; [now destruct (Hns s)|].
      assert (Hex : exists v, v ∈ args /\ forall s, v <> JStr s) by eauto.
      apply IH in Hex. discriminate.
    + split; [|reflexivity]. intros _.
      destruct (proj1 IH eq_refl) as (v & Hv & Hns).
      exists v. split; [now apply list_elem_of_further | assumption].
Qed.

(** X4: the gate answers NoContext to a request without a role whatever
    its arguments are, and throws for a request with a role exactly when
    one of its arguments is not a string. *)
Theorem requireRole_throws_iff (args : list jsval) :
  (forall c, user_role c = None \/ user_role c = Some "" ->
     requireRole args (Some c) = Fail (Auth NoContext))
  /\ (forall c r, user_role c = Some r -> r <> "" ->
        (requireRole args (Some c) = Fail Uncaught
         <-> exists v, v ∈ args /\ forall s, v <> JStr s)).
Proof.
  split.
  - intros c [Hr|Hr]; unfold requireRole; now rewrite Hr.
  - intros c r Hr Hne. rewrite <- normalize_allowed_None.
    unfold requireRole. rewrite Hr. destruct r as [|a r]; [contradiction|].
    destruct (normalize_allowed args) as [l|].
    + split; [|discriminate].
      destruct (includes _ l); discriminate.
    + split; reflexivity.
Qed.

(** X5: the admin statistics route never reaches its controller: the
    request is refused for its credential, for its missing role, or the
    gate throws. *)
Theorem adminStats_never_served (jwt_verify : string -> option Claims)
    (authorization : option string) :
  adminStats_route jwt_verify authorization = Fail (Auth Missing)
  \/ adminStats_route jwt_verify authorization = Fail (Auth Invalid)
  \/ adminStats_route jwt_verify authorization = Fail (Auth NoContext)
  \/ adminStats_route jwt_verify authorization = Fail Uncaught.
Proof.
  unfold adminStats_route.
  destruct (verifyToken_cases jwt_verify authorization) as [-> | [-> | [d ->]]];
    [now left | now right; left |]. simpl.
  unfold requireRole.
  destruct (user_role (normalize_role d)) as [[|a r]|]; simpl; auto.
Qed.

(** ** Creation, assignment and status updates *)

Section MoreTaskFacts.
Context `{Mongoose}.


Lemma set_status_name (st : Status) :
  set_status (JStr (Status_to_string st)) = Some st.
Proof. unfold set_status. rewrite castString_JStr. apply Status_of_to_string. Qed.

Lemma truthy_JStr (s : string) : truthy (JStr s) = true <-> s <> "".
Proof.
  simpl. destruct (String.eqb_spec s ""); simpl; split; congruence.
Qed.

(** What each field of a new task comes from. *)
Lemma new_Task_Some cid usr user body isCustomer t :
  new_Task cid usr user body isCustomer = Some t ->
  required_trimmed (js_or (JStr (fullName usr)) JUndefined) = Some (customerName t)
  /\ required_trimmed (body_title body) = Some (title t)
  /\ set_description (body_description body) = Some (description t)
  /\ castDate (body_dueDate body) = Some (dueDate t)
  /\ set_roleType (js_or (body_roleType body)
                         (JStr (if isCustomer then "customer" else "staff")))
     = Some (roleType t)
  /\ set_createdBy (js_or (JStr (user_email user)) (JStr "system@factory.com"))
     = Some (createdBy t)
  /\ customerId t = cid.
Proof.
  unfold new_Task.
  destruct (required_trimmed (js_or (JStr (fullName usr)) JUndefined));
    [|discriminate].
  destruct (required_trimmed (body_title body)); [|discriminate].
  destruct (set_description (body_description body)); [|discriminate].
  destruct (castDate (body_dueDate body)); [|discriminate].
  destruct (set_roleType _); [|discriminate].
  destruct (set_createdBy _); [|discriminate].
  simpl. intros [= <-]. simpl. repeat split.
Qed.

(** The assign handler once the request is complete and the task found. *)
Lemma assign_handler_found db body k task :
  truthy (requestId body) = true -> truthy (staffId body) = true ->
  truthy (staffName body) = true ->
  castObjectId (requestId body) = Some k -> tasks db !! k = Some task ->
  assign_handler db body =
    match assign_fields task (staffId body) (staffName body) with
    | Some task' => Done (with_tasks db (<[k := task']> (tasks db)), task')
    | None => Fail StoreError
    end.
Proof.
  intros Hr Hi Hn Hk Ht. unfold assign_handler.
  rewrite Hr, Hi, Hn, Hk. simpl. rewrite Ht. simpl.
  destruct (assign_fields task (staffId body) (staffName body)); reflexivity.
Qed.

(** What a successful assignment needed: the gate and a complete body. *)
Lemma assign_Done_request db user body r :
  assign db user body = Done r ->
  requireRoles [ROLES.ADMIN; ROLES.MANAGER] (Some user) = Done tt
  /\ truthy (requestId body) = true /\ truthy (staffId body) = true
  /\ truthy (staffName body) = true.
Proof.
  unfold assign, assign_handler. intros Ha. invert_outcome.
  match goal with Hb : _ || _ || _ = false |- _ =>
    apply orb_false_iff in Hb; destruct Hb as [Hb Hn];
    apply orb_false_iff in Hb; destruct Hb as [Hr Hi];
    apply negb_false_iff in Hr, Hi, Hn end.
  match goal with Hg : requireRoles _ _ = Done ?u |- _ => destruct u end.
  auto.
Qed.

(** X6: only an admin, a manager or a customer ever creates a task: for a
    staff member, for any other role and for claims without a role the
    creation route never succeeds. *)
Theorem create_only_by_creators db newId user body r :
  create db newId user body = Done r ->
  user_role user = Some ROLES.ADMIN \/ user_role user = Some ROLES.MANAGER
  \/ user_role user = Some ROLES.CUSTOMER.
Proof.
  unfold create. intros Hc. invert_outcome.
  match goal with Hb : negb (_ || _) && negb _ = false |- _ =>
    rename Hb into Hrole end.
  rewrite <- !role_is_eq.
  destruct (role_is user ROLES.ADMIN), (role_is user ROLES.MANAGER),
    (role_is user ROLES.CUSTOMER); simpl in Hrole; auto; discriminate.
Qed.

(** X7: a created task is pending and unassigned.  Its [roleType] is the
    payload's when the payload names one, even for a customer; otherwise it
    is customer for a customer and staff for the others. *)
Theorem create_fresh_task db newId user body db' t :
  create db newId user body = Done (db', t) ->
  status t = Pending /\ assignedTo t = None /\ assignedName t = ""
  /\ (truthy (body_roleType body) = false ->
        roleType t = if role_is user ROLES.CUSTOMER then CustomerTask
                     else StaffTask)
  /\ (forall s, body_roleType body = JStr s -> s <> "" ->
        RoleType_of_string s = Some (roleType t)).
Proof.
  intros Hc. apply create_Done in Hc.
  destruct Hc as (cid & usr & _ & _ & Hnew & _ & _).
  pose proof (new_Task_fresh _ _ _ _ _ _ Hnew) as (_ & Hst & Hto & Hnm).
  repeat split; try assumption.
  - intros Hf. unfold new_Task, js_or in Hnew. rewrite Hf in Hnew.
    unfold set_roleType in Hnew. rewrite castString_JStr in Hnew.
    destruct (role_is user ROLES.CUSTOMER); simplify_option_eq; reflexivity.
  - intros s Hs Hne. unfold new_Task, js_or in Hnew. rewrite Hs in Hnew.
    rewrite (proj2 (truthy_JStr s) Hne) in Hnew.
    unfold set_roleType in Hnew. rewrite castString_JStr in Hnew.
    simplify_option_eq. reflexivity.
Qed.

(** X8: a creation stores the new task under an id no task had, keeps
    every other task and leaves the user directory alone. *)
Theorem create_adds_one db newId user body db' t :
  create db newId user body = Done (db', t) ->
  tasks db !! newId = None
  /\ tasks db' !! newId = Some t
  /\ (forall k, k <> newId -> tasks db' !! k = tasks db !! k)
  /\ users db' = users db.
Proof.
  intros Hc. apply create_Done in Hc.
  destruct Hc as (cid & usr & _ & _ & _ & Hfresh & ->). simpl.
  repeat split; [assumption | apply lookup_insert_eq |].
  intros k Hk. now apply lookup_insert_ne.
Qed.


(** X10: for an admin or a manager, the refusals of an assignment in the
    order the handler makes them: a missing field, then an id that is no
    ObjectId, then an unknown task, then a staff id that is no ObjectId. *)
Theorem assign_refusals db user body :
  elevated user ->
  (truthy (requestId body) && truthy (staffId body) && truthy (staffName body)
     = false -> assign db user body = Fail MissingField)
  /\ (truthy (requestId body) && truthy (staffId body) && truthy (staffName body)
        = true ->
      (castObjectId (requestId body) = None ->
         assign db user body = Fail StoreError)
      /\ (forall k, castObjectId (requestId body) = Some k ->
            (tasks db !! k = None -> assign db user body = Fail NotFound)
            /\ (is_Some (tasks db !! k) -> castObjectId (staffId body) = None ->
                  assign db user body = Fail StoreError))).
Proof.
  intros He. unfold assign. rewrite (requireRoles_elevated _ He). simpl.
  unfold assign_handler.
  destruct (truthy (requestId body)), (truthy (staffId body)),
    (truthy (staffName body)); simpl;
    (split; [try reflexivity; discriminate | try discriminate]).
  intros _. split.
  - now intros ->.
  - intros k ->. simpl. split.
    + now intros ->.
    + intros [task ->] Hsid. simpl. unfold assign_fields. now rewrite Hsid.
Qed.

(** X11: an assignment repeated with the same body changes nothing more:
    the second call answers the same task and leaves the database the first
    call made. *)
Theorem assign_idempotent db user body db' t' :
  assign db user body = Done (db', t') ->
  assign db' user body = Done (db', t').
Proof.
  intros Ha. pose proof (assign_Done_request _ _ _ _ Ha) as (Hg & Hr & Hi & Hn).
  apply assign_Done in Ha. destruct Ha as (k & task & Hk & Ht & Hf & ->).
  unfold assign. rewrite Hg. simpl.
  rewrite (assign_handler_found _ _ k t' Hr Hi Hn Hk)
    by (simpl; apply lookup_insert_eq).
  assert (Hf' : assign_fields t' (staffId body) (staffName body) = Some t').
  { unfold assign_fields in *. simplify_option_eq. reflexivity. }
  rewrite Hf'. simpl. now rewrite insert_insert_eq.
Qed.

(** X12: after an assignment, the staff member whose id is the stored
    assignee completes the task, and every other staff member is refused
    whatever status is asked; a former assignee is among them. *)
Theorem assign_hands_over db user body db' t' id k :
  assign db user body = Done (db', t') ->
  castObjectId (requestId body) = Some k -> castObjectId (JStr id) = Some k ->
  forall staff, user_role staff = Some ROLES.STAFF ->
    (assignedTo t' = Some (user_id staff) ->
       updateStatus db' staff id (JStr "completed")
       = Done (with_tasks db' (<[k := with_status t' Completed]> (tasks db')),
               with_status t' Completed))
    /\ (assignedTo t' <> Some (user_id staff) ->
          forall newStatus,
            updateStatus db' staff id newStatus = Fail (Auth Forbidden)).
Proof.
  intros Ha Hk Hid staff Hrole.
  apply assign_Done in Ha. destruct Ha as (k0 & task & Hk0 & _ & _ & ->).
  assert (k0 = k) by congruence. subst k0.
  assert (Ht' : tasks (with_tasks db (<[k:=t']> (tasks db))) !! k = Some t')
    by (simpl; apply lookup_insert_eq).
  split.
  - intros Hto. apply (updateStatus_owner_completes _ _ _ _ _ Hid Ht').
    right. auto.
  - intros Hto newStatus. rewrite (updateStatus_found _ _ _ _ _ _ Hid Ht').
    assert (Hcs : customer_or_staff staff = true)
      by (apply customer_or_staff_roles; auto).
    assert (Hcu : canUpdate staff t' = false).
    { destruct (canUpdate staff t') eqn:Hcu; [|reflexivity].
      apply canUpdate_owns in Hcu. destruct Hcu as [[Hc _]|[_ Hs]].
      - rewrite Hrole in Hc. discriminate.
      - contradiction. }
    now rewrite Hcs, Hcu.
Qed.

(** X13: the status route has no gate of its own: a caller whose role is
    neither customer nor staff, be it another role or none at all, writes
    any of the four statuses on any task, forward or backward. *)
Theorem updateStatus_ungated db user id k task st :
  castObjectId (JStr id) = Some k -> tasks db !! k = Some task ->
  customer_or_staff user = false ->
  updateStatus db user id (JStr (Status_to_string st))
  = Done (with_tasks db (<[k := with_status task st]> (tasks db)),
          with_status task st).
Proof.
  intros Hk Ht Hcs. rewrite (updateStatus_found _ _ _ _ _ _ Hk Ht), Hcs.
  rewrite set_status_name. now destruct st.
Qed.

(** X14: a status name outside the enum, asked by such a caller, is
    refused by the schema when the document is saved: the answer is 500
    and the task keeps its status. *)
Theorem updateStatus_unknown_status db user id k task s :
  castObjectId (JStr id) = Some k -> tasks db !! k = Some task ->
  customer_or_staff user = false ->
  s <> "" -> Status_of_string s = None ->
  updateStatus db user id (JStr s) = Fail StoreError.
Proof.
  intros Hk Ht Hcs Hne Hs. rewrite (updateStatus_found _ _ _ _ _ _ Hk Ht), Hcs.
  rewrite (proj2 (truthy_JStr s) Hne). unfold set_status.
  now rewrite castString_JStr, Hs.
Qed.

End MoreTaskFacts.

(** ** What no sequence of requests changes *)

Section MoreRunFacts.
Context `{Mongoose}.

Lemma evolves_refl (t : Task) : evolves t t.
Proof. unfold evolves. tauto. Qed.

Lemma evolves_trans (t1 t2 t3 : Task) :
  evolves t1 t2 -> evolves t2 t3 -> evolves t1 t3.
Proof. unfold evolves. intuition congruence. Qed.

Lemma assign_fields_shape task sid sname t' :
  assign_fields task sid sname = Some t' ->
  exists a n, t' = mkTask (customerId task) (customerName task) (title task)
                          (description task) (dueDate task) Assigned StaffTask
                          (createdBy task) (Some a) n.
Proof. unfold assign_fields. intros Ht. simplify_option_eq. eauto. Qed.

Lemma step_users db rq : users (step db rq) = users db.
Proof.
  unfold step. destruct (handle db rq) as [[db' t1]|f] eqn:Hh; [|reflexivity].
  destruct rq; simpl in Hh.
  - apply create_Done in Hh. destruct Hh as (? & ? & _ & _ & _ & _ & ->).
    reflexivity.
  - apply assign_Done in Hh. destruct Hh as (? & ? & _ & _ & _ & ->).
    reflexivity.
  - apply updateStatus_Done in Hh.
    destruct Hh as (? & ? & _ & _ & _ & [(_ & -> & _) | (? & _ & _ & ->)]);
      reflexivity.
Qed.

Lemma step_evolves db rq k t :
  tasks db !! k = Some t ->
  exists t', tasks (step db rq) !! k = Some t' /\ evolves t t'.
Proof.
  intros Ht. unfold step.
  destruct (handle db rq) as [[db' t1]|f] eqn:Hh;
    [|exists t; split; [assumption | apply evolves_refl]].
  destruct rq as [newId user body | user body | user id newStatus]; simpl in Hh.
  - apply create_Done in Hh.
    destruct Hh as (cid & usr & _ & _ & _ & Hfresh & ->).
    exists t. split; [|apply evolves_refl]. simpl.
    rewrite lookup_insert_ne; [assumption | congruence].
  - apply assign_Done in Hh.
    destruct Hh as (k0 & task & _ & Ht0 & Hfields & ->). simpl.
    destruct (decide (k0 = k)) as [->|Hne].
    + rewrite lookup_insert_eq. exists t1. split; [reflexivity|].
      assert (task = t) by congruence. subst task.
      apply assign_fields_shape in Hfields. destruct Hfields as (a & n & ->).
      unfold evolves. simpl. repeat split; eauto.
    + rewrite lookup_insert_ne by assumption.
      exists t. split; [assumption | apply evolves_refl].
  - apply updateStatus_Done in Hh.
    destruct Hh as (k0 & task & _ & Ht0 & _ & Hcase).
    destruct Hcase as [(_ & -> & _) | (st & _ & -> & ->)];
      [exists t; split; [assumption | apply evolves_refl]|].
    simpl. destruct (decide (k0 = k)) as [->|Hne].
    + rewrite lookup_insert_eq. eexists. split; [reflexivity|].
      assert (task = t) by congruence. subst task.
      unfold evolves. simpl. tauto.
    + rewrite lookup_insert_ne by assumption.
      exists t. split; [assumption | apply evolves_refl].
Qed.

Lemma run_evolves db rqs k t :
  tasks db !! k = Some t ->
  exists t', tasks (run db rqs) !! k = Some t' /\ evolves t t'.
Proof.
  revert db t. induction rqs as [|rq rqs IH]; intros db t Ht.
  - exists t. split; [assumption | apply evolves_refl].
  - rewrite run_cons.
    destruct (step_evolves db rq k t Ht) as (t1 & Ht1 & He1).
    destruct (IH _ _ Ht1) as (t2 & Ht2 & He2).
    exists t2. split; [assumption | eapply evolves_trans; eassumption].
Qed.

Lemma run_users db rqs : users (run db rqs) = users db.
Proof.
  revert db. induction rqs as [|rq rqs IH]; intros db; [reflexivity|].
  now rewrite run_cons, IH, step_users.
Qed.

(** X15: no sequence of creations, assignments and status updates, by any
    actors, removes a task or changes its customer, its customer name, its
    title, its description, its due date or its creator; nor does it
    change the user directory. *)
Theorem run_keeps_identity db rqs k t :
  tasks db !! k = Some t ->
  users (run db rqs) = users db
  /\ exists t', tasks (run db rqs) !! k = Some t'
       /\ customerId t' = customerId t
       /\ customerName t' = customerName t
       /\ title t' = title t
       /\ description t' = description t
       /\ dueDate t' = dueDate t
       /\ createdBy t' = createdBy t.
Proof.
  intros Ht. split; [apply run_users|].
  destruct (run_evolves db rqs k t Ht) as (t' & Ht' & He).
  exists t'. unfold evolves in He. tauto.
Qed.

(** X16: along any such sequence a staff task stays a staff task and a
    task that has an assignee keeps having one. *)
Theorem run_staff_and_assignee_stay db rqs k t :
  tasks db !! k = Some t ->
  exists t', tasks (run db rqs) !! k = Some t'
    /\ (roleType t = StaffTask -> roleType t' = StaffTask)
    /\ (assignedTo t <> None -> assignedTo t' <> None).
Proof.
  intros Ht. destruct (run_evolves db rqs k t Ht) as (t' & Ht' & He).
  exists t'. unfold evolves in He. split; [assumption|]. split; [tauto|].
  intros Hsome. destruct He as (_ & _ & _ & _ & _ & _ & _ & Hkeep).
  destruct (assignedTo t) as [a|]; [|contradiction].
  destruct (Hkeep (ex_intro _ a eq_refl)) as [a' ->]. discriminate.
Qed.

Lemma step_requests_unassigned db rq :
  requests_unassigned db -> requests_unassigned (step db rq).
Proof.
  intros Hinv. unfold step.
  destruct (handle db rq) as [[db' t1]|f] eqn:Hh; [|assumption].
  intros k t Hk Hrt.
  destruct rq as [newId user body | user body | user id newStatus]; simpl in Hh.
  - apply create_Done in Hh.
    destruct Hh as (cid & usr & _ & _ & Hnew & _ & ->). simpl in Hk.
    apply new_Task_fresh in Hnew. destruct Hnew as (_ & _ & Hnone & Hname).
    destruct (decide (newId = k)) as [->|Hne].
    + rewrite lookup_insert_eq in Hk. injection Hk as <-. auto.
    + rewrite lookup_insert_ne in Hk by assumption. eauto.
  - apply assign_Done in Hh.
    destruct Hh as (k0 & task & _ & _ & Hfields & ->). simpl in Hk.
    apply assign_fields_Some in Hfields. destruct Hfields as (_ & Hstaff & _).
    destruct (decide (k0 = k)) as [->|Hne].
    + rewrite lookup_insert_eq in Hk. injection Hk as <-. congruence.
    + rewrite lookup_insert_ne in Hk by assumption. eauto.
  - apply updateStatus_Done in Hh.
    destruct Hh as (k0 & task & _ & Ht0 & _ & Hcase).
    destruct Hcase as [(_ & -> & _) | (st & _ & -> & ->)]; [eauto|].
    simpl in Hk. destruct (decide (k0 = k)) as [->|Hne].
    + rewrite lookup_insert_eq in Hk. injection Hk as <-. simpl in *.
      now apply (Hinv k task).
    + rewrite lookup_insert_ne in Hk by assumption. eauto.
Qed.

(** X17: in a database reached from no task at all by any sequence of
    creations, assignments and status updates, a task whose [roleType] is
    customer has no assignee and an empty assignee name. *)
Theorem reachable_requests_unassigned us rqs k t :
  tasks (run (mkDb us ∅) rqs) !! k = Some t ->
  roleType t = CustomerTask ->
  assignedTo t = None /\ assignedName t = "".
Proof.
  assert (Hall : forall db, requests_unassigned db ->
                            requests_unassigned (run db rqs)).
  { induction rqs as [|rq rqs IH]; intros db Hinv; [assumption|].
    rewrite run_cons. apply IH. now apply step_requests_unassigned. }
  apply Hall. intros k0 t0 Hk0. simpl in Hk0. now rewrite lookup_empty in Hk0.
Qed.

End MoreRunFacts.

(** ** Deletion and the two lists *)

Section OtherRouteFacts.
Context `{Mongoose}.

Lemma requireRoles_Done (allowed : list string) (user : Claims) :
  requireRoles allowed (Some user) = Done tt ->
  exists r, user_role user = Some r /\ r <> ""
            /\ toLowerCase r ∈ toLowerCase <$> allowed.
Proof.
  unfold requireRoles, requireRole. rewrite normalize_allowed_strings.
  destruct (user_role user) as [[|a r]|]; try discriminate.
  destruct (includes _ _) eqn:Hin; [|discriminate].
  intros _. exists (String a r). repeat split; [discriminate|].
  now apply includes_elem_of.
Qed.

Lemma find_tasks_lookup db f test m k t :
  cast_filter f = Some test -> find_tasks db f = Done m ->
  m !! k = Some t <-> tasks db !! k = Some t /\ test t = true.
Proof.
  intros Hf. unfold find_tasks. rewrite Hf. simpl. intros [= <-].
  apply map_lookup_filter_Some.
Qed.

Lemma find_tasks_cast db f m :
  find_tasks db f = Done m -> exists test, cast_filter f = Some test.
Proof.
  unfold find_tasks. destruct (cast_filter f) as [test|]; [eauto | discriminate].
Qed.

(** What a successful deletion did. *)
Lemma deleteTask_Done db user id db' t :
  deleteTask db user id = Done (db', t) ->
  requireRoles [ROLES.ADMIN; ROLES.MANAGER] (Some user) = Done tt
  /\ exists k, castObjectId (JStr id) = Some k
       /\ tasks db !! k = Some t
       /\ db' = with_tasks db (delete k (tasks db)).
Proof.
  unfold deleteTask. intros Hd. invert_outcome.
  match goal with Hg : requireRoles _ _ = Done ?u |- _ => destruct u end.
  simplify_eq. eauto 10.
Qed.

(** X18: a deletion is only carried out for a caller whose role, in any
    case, is admin or manager; it removes the task it answers with, keeps
    every other task and leaves the user directory alone. *)
Theorem deleteTask_removes db user id db' t :
  deleteTask db user id = Done (db', t) ->
  (exists r, user_role user = Some r
      /\ (toLowerCase r = ROLES.ADMIN \/ toLowerCase r = ROLES.MANAGER))
  /\ exists k, castObjectId (JStr id) = Some k
       /\ tasks db !! k = Some t
       /\ tasks db' !! k = None
       /\ (forall k', k' <> k -> tasks db' !! k' = tasks db !! k')
       /\ users db' = users db.
Proof.
  intros Hd. apply deleteTask_Done in Hd. destruct Hd as (Hg & k & Hk & Ht & ->).
  split.
  - apply requireRoles_Done in Hg. destruct Hg as (r & Hr & _ & Hin).
    exists r. split; [assumption|].
    apply list_elem_of_In in Hin. simpl in Hin.
    destruct Hin as [Hin | [Hin | []]]; [left | right]; now rewrite <- Hin.
  - exists k. simpl. repeat split; [assumption | assumption
                                    | apply lookup_delete_eq |].
    intros k' Hne. now apply lookup_delete_ne.
Qed.

(** X19: once a task is deleted, a status update on its id is answered
    NotFound whoever asks and whatever is asked, a second deletion by the
    same caller is answered NotFound too, and neither list shows the id any
    more. *)
Theorem deleteTask_then_not_found db user id db' t :
  deleteTask db user id = Done (db', t) ->
  (forall actor newStatus,
      updateStatus db' actor id newStatus = Fail NotFound)
  /\ deleteTask db' user id = Fail NotFound
  /\ (forall reader m k, castObjectId (JStr id) = Some k ->
        listAll db' reader = Done m \/ listMine db' reader = Done m ->
        m !! k = None).
Proof.
  intros Hd. apply deleteTask_Done in Hd. destruct Hd as (Hg & k & Hk & Ht & ->).
  split; [|split].
  - intros actor newStatus. unfold updateStatus. rewrite Hk. simpl.
    now rewrite lookup_delete_eq.
  - unfold deleteTask. rewrite Hg, Hk. simpl. now rewrite lookup_delete_eq.
  - intros reader m k0 Hk0 Hl. assert (k0 = k) by congruence. subst k0.
    assert (Hfind : exists f, find_tasks (with_tasks db (delete k (tasks db))) f
                              = Done m).
    { destruct Hl as [Hl|Hl]; [unfold listAll in Hl | unfold listMine in Hl];
        invert_outcome; eauto. }
    destruct Hfind as (f & Hfind).
    destruct (find_tasks_cast _ _ _ Hfind) as (test & Hf).
    destruct (m !! k) as [t0|] eqn:Hm; [|reflexivity].
    apply (find_tasks_lookup _ _ _ _ k t0 Hf Hfind) in Hm.
    destruct Hm as (Hm & _). simpl in Hm. now rewrite lookup_delete_eq in Hm.
Qed.

Lemma listMine_customer db user :
  user_role user = Some ROLES.CUSTOMER ->
  listMine db user
  = find_tasks db (mkTaskFilter (Some (user_id user)) None (Some "customer")).
Proof.
  intros Hr. unfold listMine, requireRoles, requireRole, mine_filter, role_is.
  now rewrite Hr.
Qed.

Lemma listMine_staff db user :
  user_role user = Some ROLES.STAFF ->
  listMine db user
  = find_tasks db (mkTaskFilter None (Some (user_id user)) (Some "staff")).
Proof.
  intros Hr. unfold listMine, requireRoles, requireRole, mine_filter, role_is.
  now rewrite Hr.
Qed.

Lemma roleType_string_customer (rt : RoleType) :
  (RoleType_to_string rt =? "customer") = true <-> rt = CustomerTask.
Proof. destruct rt; simpl; split; congruence. Qed.

Lemma roleType_string_staff (rt : RoleType) :
  (RoleType_to_string rt =? "staff") = true <-> rt = StaffTask.
Proof. destruct rt; simpl; split; congruence. Qed.

Lemma customer_filter_test uid raw :
  castObjectId (JStr raw) = Some uid ->
  exists test,
    cast_filter (mkTaskFilter (Some raw) None (Some "customer")) = Some test
    /\ forall t, test t = true
                 <-> customerId t = uid /\ roleType t = CustomerTask.
Proof.
  intros Hc. unfold cast_filter. simpl. rewrite Hc. simpl.
  eexists. split; [reflexivity|]. intros t. simpl.
  rewrite andb_true_r, andb_true_iff, String.eqb_eq, roleType_string_customer.
  reflexivity.
Qed.

Lemma staff_filter_test uid raw :
  castObjectId (JStr raw) = Some uid ->
  exists test,
    cast_filter (mkTaskFilter None (Some raw) (Some "staff")) = Some test
    /\ forall t, test t = true
                 <-> assignedTo t = Some uid /\ roleType t = StaffTask.
Proof.
  intros Hc. unfold cast_filter. simpl. rewrite Hc. simpl.
  eexists. split; [reflexivity|]. intros t. simpl.
  rewrite andb_true_iff, roleType_string_staff.
  destruct (assignedTo t) as [a|].
  - rewrite String.eqb_eq. split; intros [? ?]; split; congruence.
  - split; intros [? ?]; discriminate.
Qed.

(** X20: for claims with a lower-case role, as [verifyToken] leaves them,
    the list of one's own tasks holds exactly the customer requests filed
    under the caller's id when the caller is a customer, and exactly the
    staff tasks assigned to the caller when the caller is a staff member. *)
Theorem listMine_scope db user uid m :
  (forall r, user_role user = Some r -> toLowerCase r = r) ->
  castObjectId (JStr (user_id user)) = Some uid ->
  listMine db user = Done m ->
  forall k t,
    m !! k = Some t <->
    tasks db !! k = Some t
    /\ ((user_role user = Some ROLES.CUSTOMER
         /\ customerId t = uid /\ roleType t = CustomerTask)
        \/ (user_role user = Some ROLES.STAFF
            /\ assignedTo t = Some uid /\ roleType t = StaffTask)).
Proof.
  intros Hlow Huid Hl k t.
  assert (Hg : requireRoles [ROLES.CUSTOMER; ROLES.STAFF] (Some user) = Done tt).
  { unfold listMine in Hl.
    destruct (requireRoles [ROLES.CUSTOMER; ROLES.STAFF] (Some user)) as [[]|];
      [reflexivity | discriminate]. }
  apply requireRoles_Done in Hg. destruct Hg as (r & Hr & _ & Hin).
  rewrite (Hlow r Hr) in Hin. apply list_elem_of_In in Hin. simpl in Hin.
  destruct Hin as [Hin | [Hin | []]]; subst r.
  - rewrite (listMine_customer _ _ Hr) in Hl.
    destruct (customer_filter_test uid _ Huid) as (test & Hf & Htest).
    rewrite (find_tasks_lookup _ _ _ _ k t Hf Hl), Htest, Hr.
    split; [intros (? & ? & ?); auto|].
    intros (? & [(_ & ? & ?) | (Hs & _)]); [auto | discriminate].
  - rewrite (listMine_staff _ _ Hr) in Hl.
    destruct (staff_filter_test uid _ Huid) as (test & Hf & Htest).
    rewrite (find_tasks_lookup _ _ _ _ k t Hf Hl), Htest, Hr.
    split; [intros (? & ? & ?); auto|].
    intros (? & [(Hc & _) | (_ & ? & ?)]); [discriminate | auto].
Qed.

(** X21: the list of one's own tasks relies on that lower-casing: for
    claims whose role is customer or staff written with a capital, the gate
    lets the request in, neither test of the handler matches, and the
    answer is every task there is. *)
Theorem listMine_capitalised_role db user r :
  user_role user = Some r ->
  toLowerCase r ∈ [ROLES.CUSTOMER; ROLES.STAFF] ->
  r <> ROLES.CUSTOMER -> r <> ROLES.STAFF ->
  listMine db user = Done (tasks db).
Proof.
  intros Hr Hin Hnc Hns.
  assert (Hne : r <> "").
  { intros ->. apply list_elem_of_In in Hin. simpl in Hin.
    intuition discriminate. }
  unfold listMine.
  rewrite (requireRoles_with_role _ _ _ Hr Hne).
  change (toLowerCase <$> [ROLES.CUSTOMER; ROLES.STAFF])
    with [ROLES.CUSTOMER; ROLES.STAFF].
  rewrite (proj2 (includes_elem_of _ _) Hin). simpl.
  unfold mine_filter, role_is. rewrite Hr.
  destruct (String.eqb_spec r ROLES.CUSTOMER); [contradiction|].
  destruct (String.eqb_spec r ROLES.STAFF); [contradiction|].
  unfold find_tasks. simpl. f_equal. now apply map_filter_id.
Qed.

(** X22: an assignment moves a task from one list to the other: no
    customer finds it in the list of their own tasks any more, the staff
    member it is assigned to finds it in theirs, and the customer it was
    filed for can still complete it. *)
Theorem assign_changes_lists db user body db' t' k :
  assign db user body = Done (db', t') ->
  castObjectId (requestId body) = Some k ->
  (forall customer m, user_role customer = Some ROLES.CUSTOMER ->
     listMine db' customer = Done m -> m !! k = None)
  /\ (forall staff m, user_role staff = Some ROLES.STAFF ->
        castObjectId (JStr (user_id staff)) = assignedTo t' ->
        listMine db' staff = Done m -> m !! k = Some t')
  /\ (forall customer id, user_role customer = Some ROLES.CUSTOMER ->
        customerId t' = user_id customer -> castObjectId (JStr id) = Some k ->
        updateStatus db' customer id (JStr "completed")
        = Done (with_tasks db' (<[k := with_status t' Completed]> (tasks db')),
                with_status t' Completed)).
Proof.
  intros Ha Hk. apply assign_Done in Ha.
  destruct Ha as (k0 & task & Hk0 & _ & Hf & ->).
  assert (k0 = k) by congruence. subst k0.
  apply assign_fields_Some in Hf. destruct Hf as (_ & Hstaff & _).
  assert (Ht' : tasks (with_tasks db (<[k:=t']> (tasks db))) !! k = Some t')
    by (simpl; apply lookup_insert_eq).
  split; [|split].
  - intros customer m Hr Hl. rewrite (listMine_customer _ _ Hr) in Hl.
    destruct (find_tasks_cast _ _ _ Hl) as (test & Hf).
    destruct (m !! k) as [t|] eqn:Hm; [|reflexivity].
    apply (find_tasks_lookup _ _ _ _ k t Hf Hl) in Hm. destruct Hm as (Ht & Htest).
    assert (t = t') by congruence. subst t.
    unfold cast_filter in Hf. simpl in Hf.
    destruct (castObjectId (JStr (user_id customer))); [|discriminate].
    simpl in Hf. injection Hf as <-. rewrite Hstaff in Htest. simpl in Htest.
    rewrite andb_false_r in Htest. discriminate.
  - intros staff m Hr Hto Hl. rewrite (listMine_staff _ _ Hr) in Hl.
    destruct (assignedTo t') as [a|] eqn:Ha; [|
      destruct (find_tasks_cast _ _ _ Hl) as (test & Hf);
      unfold cast_filter in Hf; simpl in Hf; rewrite Hto in Hf; discriminate].
    destruct (staff_filter_test a _ Hto) as (test & Hf & Htest).
    apply (find_tasks_lookup _ _ _ _ k t' Hf Hl). split; [assumption|].
    apply Htest. auto.
  - intros customer id Hr Hc Hid.
    apply (updateStatus_owner_completes _ _ _ _ _ Hid Ht'). left. auto.
Qed.

(** X27: a request a customer files without naming a [roleType] shows up
    in that customer's list under its new id; filed with [roleType] staff
    it is stored all the same but the customer's list does not show it. *)
Theorem create_then_listMine db newId user body db' t m :
  user_role user = Some ROLES.CUSTOMER ->
  create db newId user body = Done (db', t) ->
  listMine db' user = Done m ->
  (truthy (body_roleType body) = false -> m !! newId = Some t)
  /\ (body_roleType body = JStr "staff" -> m !! newId = None).
Proof.
  intros Hr Hc Hl.
  assert (Hshape : create db newId user body = Done (db', t)) by assumption.
  apply create_Done in Hc.
  destruct Hc as (cid & usr & Hcid & _ & Hnew & _ & ->).
  rewrite (proj2 (role_is_eq _ _) Hr) in Hcid, Hnew.
  pose proof (new_Task_fresh _ _ _ _ _ _ Hnew) as (Hcust & _).
  rewrite (listMine_customer _ _ Hr) in Hl.
  destruct (customer_filter_test cid _ Hcid) as (test & Hf & Htest).
  assert (Hstored : tasks (with_tasks db (<[newId:=t]> (tasks db))) !! newId
                    = Some t) by (simpl; apply lookup_insert_eq).
  apply new_Task_Some in Hnew. destruct Hnew as (_ & _ & _ & _ & Hrt & _ & _).
  unfold set_roleType, js_or in Hrt.
  split.
  - intros Hfalsy. rewrite Hfalsy, castString_JStr in Hrt. injection Hrt as Hrt.
    apply (find_tasks_lookup _ _ _ _ newId t Hf Hl). split; [assumption|].
    apply Htest. auto.
  - intros Hstaff. rewrite Hstaff in Hrt. simpl in Hrt.
    rewrite castString_JStr in Hrt. injection Hrt as Hrt.
    destruct (m !! newId) as [t0|] eqn:Hm; [|reflexivity].
    apply (find_tasks_lookup _ _ _ _ newId t0 Hf Hl) in Hm.
    destruct Hm as (Hm & Ht0). assert (t0 = t) by congruence. subst t0.
    apply Htest in Ht0. destruct Ht0 as (_ & Hc). congruence.
Qed.


End OtherRouteFacts.

(** ** Expenses *)

Section ExpenseFacts.
Context `{Mongoose}.
Context {Amount : Type}.
Implicit Types (coll : gmap string (Expense Amount)) (e : Expense Amount).

(** [findById] sees a document only while it is not deleted. *)
Lemma Expense_findById_found coll id k :
  castObjectId (JStr id) = Some k ->
  Expense_findById coll id =
    Done (match coll !! k with
          | Some e => if isDeleted e then None else Some (k, e)
          | None => None
          end).
Proof.
  intros Hk. unfold Expense_findById, Expense_find, cast_expense_filter.
  simpl. rewrite Hk. simpl. f_equal.
  destruct (coll !! k) as [e|] eqn:He.
  - destruct (isDeleted e) eqn:Hd.
    + rewrite (proj2 (map_lookup_filter_None _ _ _)); [reflexivity|].
      right. intros e' He'. assert (e' = e) by congruence. subst e'.
      simpl. rewrite Hd, andb_false_r. discriminate.
    + rewrite (proj2 (map_lookup_filter_Some _ _ _ e)); [reflexivity|].
      split; [assumption|]. simpl. now rewrite Hd, String.eqb_refl.
  - rewrite (proj2 (map_lookup_filter_None _ _ _)); [reflexivity|]. now left.
Qed.

Lemma Expense_findById_no_id coll id :
  castObjectId (JStr id) = None -> Expense_findById coll id = Fail StoreError.
Proof. intros Hk. unfold Expense_findById. now rewrite Hk. Qed.

Lemma expense_gate_elevated user : elevated user -> expense_gate user = Done tt.
Proof. apply requireRoles_elevated. Qed.

(** The three routes once the hook is accounted for. *)
Lemma softDelete_cases coll user id :
  softDelete coll user id =
    match expense_gate user with
    | Fail f => Fail f
    | Done _ =>
        match castObjectId (JStr id) with
        | None => Fail StoreError
        | Some k =>
            match coll !! k with
            | Some e =>
                if isDeleted e then Fail NotFound
                else Done (<[k := with_deletion e true
                                     (trim (if user_email user =? ""
                                            then "admin@factory.com"
                                            else user_email user))]> coll)
            | None => Fail NotFound
            end
        end
    end.
Proof.
  unfold softDelete. destruct (expense_gate user); [|reflexivity]. simpl.
  destruct (castObjectId (JStr id)) as [k|] eqn:Hk;
    [|now rewrite (Expense_findById_no_id _ _ Hk)].
  rewrite (Expense_findById_found _ _ _ Hk). simpl.
  destruct (coll !! k) as [e|]; [|reflexivity]. now destruct (isDeleted e).
Qed.

Lemma restore_cases coll user id :
  restore coll user id =
    match expense_gate user with
    | Fail f => Fail f
    | Done _ =>
        match castObjectId (JStr id) with
        | None => Fail StoreError
        | Some k =>
            match coll !! k with
            | Some e =>
                if isDeleted e then Fail NotFound
                else Done (<[k := with_deletion e false ""]> coll)
            | None => Fail NotFound
            end
        end
    end.
Proof.
  unfold restore. destruct (expense_gate user); [|reflexivity]. simpl.
  destruct (castObjectId (JStr id)) as [k|] eqn:Hk;
    [|now rewrite (Expense_findById_no_id _ _ Hk)].
  rewrite (Expense_findById_found _ _ _ Hk). simpl.
  destruct (coll !! k) as [e|]; [|reflexivity]. now destruct (isDeleted e).
Qed.

Lemma hardDelete_cases coll user id :
  hardDelete coll user id =
    match expense_gate user with
    | Fail f => Fail f
    | Done _ =>
        match castObjectId (JStr id) with
        | None => Fail StoreError
        | Some k =>
            match coll !! k with
            | Some e => if isDeleted e then Fail NotFound
                        else Done (delete k coll)
            | None => Fail NotFound
            end
        end
    end.
Proof.
  unfold hardDelete. destruct (expense_gate user); [|reflexivity]. simpl.
  destruct (castObjectId (JStr id)) as [k|] eqn:Hk;
    [|now rewrite (Expense_findById_no_id _ _ Hk)].
  rewrite (Expense_findById_found _ _ _ Hk). simpl.
  destruct (coll !! k) as [e|]; [|reflexivity].
  now destruct (isDeleted e).
Qed.


(** X24: every route that addresses one expense looks it up with
    [findById], which the schema's hook narrows to active expenses: for a
    soft-deleted expense a second soft delete, a restore and a permanent
    delete are all answered NotFound, whoever asks. *)
Theorem deleted_expense_not_found coll user id k e :
  castObjectId (JStr id) = Some k -> coll !! k = Some e -> isDeleted e = true ->
  elevated user ->
  softDelete coll user id = Fail NotFound
  /\ restore coll user id = Fail NotFound
  /\ hardDelete coll user id = Fail NotFound.
Proof.
  intros Hk He Hd Hu.
  rewrite softDelete_cases, restore_cases, hardDelete_cases.
  rewrite (expense_gate_elevated _ Hu), Hk, He, Hd. repeat split.
Qed.


Lemma step_expense_deleted coll rq k e :
  coll !! k = Some e -> isDeleted e = true ->
  step_expense coll rq !! k = Some e.
Proof.
  intros He Hd. unfold step_expense.
  destruct (handle_expense coll rq) as [coll'|f] eqn:Hh; [|assumption].
  destruct rq as [user id | user id | user id]; simpl in Hh;
    [rewrite softDelete_cases in Hh | rewrite restore_cases in Hh
    | rewrite hardDelete_cases in Hh];
    (destruct (expense_gate user); [|discriminate]);
    (destruct (castObjectId (JStr id)) as [k0|]; [|discriminate]);
    (destruct (coll !! k0) as [e0|] eqn:He0; [|discriminate]);
    (destruct (isDeleted e0) eqn:Hd0; [discriminate|]);
    injection Hh as <-;
    (assert (k0 <> k) by (intros ->; congruence));
    [rewrite lookup_insert_ne | rewrite lookup_insert_ne
    | rewrite lookup_delete_ne]; assumption.
Qed.

(** X26: a soft-deleted expense is out of reach for good: after any
    sequence of soft deletes, restores and permanent deletes, by any
    callers and on any ids, it is still in the collection, still deleted
    and unchanged. *)
Theorem soft_deleted_forever coll rqs k e :
  coll !! k = Some e -> isDeleted e = true ->
  run_expenses coll rqs !! k = Some e.
Proof.
  revert coll. induction rqs as [|rq rqs IH]; intros coll He Hd; [assumption|].
  change (run_expenses coll (rq :: rqs))
    with (run_expenses (step_expense coll rq) rqs).
  apply IH; [|assumption]. now apply step_expense_deleted.
Qed.

End ExpenseFacts.

(** * The claims on the sample database *)

Module Scenario.
Import Sample.
#[local] Existing Instance hex_driver.

(** The end-to-end scenario of the specification: Amina files a pickup,
    Bilal hands it to Sara, Sara completes it, Sara cannot reopen it and
    Tariq cannot complete it. *)
Example end_to_end :
  create db0 task_id amina pickup = Done (db_with requested, requested)
  /\ assign (db_with requested) bilal (to_sara "Sara")
     = Done (db_with (handed "Sara"), handed "Sara")
  /\ updateStatus (db_with (handed "Sara")) sara task_id (JStr "completed")
     = Done (db_with finished, finished)
  /\ updateStatus (db_with finished) sara task_id (JStr "pending")
     = Fail (Auth Forbidden)
  /\ updateStatus (db_with (handed "Sara")) tariq task_id (JStr "completed")
     = Fail (Auth Forbidden).
Proof. repeat split; vm_compute; reflexivity. Qed.

Lemma verifyToken_refusals_witness :
  verifyToken reject_all (Some "bearer tok.en.1") = Fail (Auth Missing)
  /\ verifyToken one_token (Some "Bearer  tok.en.1") = Fail (Auth Missing)
  /\ verifyToken one_token (Some "Bearer tok.en.2") = Fail (Auth Invalid).
Proof.
  split; [|split].
  - apply (verifyToken_refusals reject_all "bearer tok.en.1"). reflexivity.
  - apply (verifyToken_refusals one_token "Bearer  tok.en.1") with (r := " tok.en.1");
      reflexivity.
  - apply (verifyToken_refusals one_token "Bearer tok.en.2") with (r := "tok.en.2");
      [reflexivity | discriminate | reflexivity].
Defined.

(** C5, as stated, fails on the header that is the prefix alone: the
    prefix is right and the verifier refuses the token that follows, yet
    the answer is Missing, not Invalid. *)
Lemma verifyToken_empty_token_counterexample :
  startsWith "Bearer " "Bearer " = true
  /\ reject_all "" = None
  /\ verifyToken reject_all (Some "Bearer ") = Fail (Auth Missing)
  /\ verifyToken reject_all (Some "Bearer ") <> Fail (Auth Invalid).
Proof. repeat split. discriminate. Qed.


Lemma sara_owns_handed : owns sara (handed "Sara").
Proof. right. split; reflexivity. Qed.

Lemma updateStatus_customer_staff_witness :
  castObjectId (JStr task_id) = Some task_id
  /\ tasks (db_with (handed "Sara")) !! task_id = Some (handed "Sara")
  /\ updateStatus (db_with (handed "Sara")) sara task_id (JStr "in progress")
     = Fail (Auth Forbidden).
Proof.
  assert (Hk : castObjectId (JStr task_id) = Some task_id) by reflexivity.
  assert (Ht : tasks (db_with (handed "Sara")) !! task_id = Some (handed "Sara"))
    by (vm_compute; reflexivity).
  split; [exact Hk|]. split; [exact Ht|].
  apply (updateStatus_customer_staff (db_with (handed "Sara")) sara task_id
           (JStr "in progress") task_id (handed "Sara") Hk Ht).
  - right. reflexivity.
  - exact sara_owns_handed.
  - discriminate.
Defined.

Lemma updateStatus_frame_witness :
  updateStatus (db_with (handed "Sara")) sara task_id (JStr "completed")
    = Done (db_with finished, finished)
  /\ assignedTo finished = assignedTo (handed "Sara")
  /\ tasks (db_with finished) !! task_id = Some finished.
Proof.
  assert (Hu : updateStatus (db_with (handed "Sara")) sara task_id (JStr "completed")
               = Done (db_with finished, finished)) by (vm_compute; reflexivity).
  assert (Ht : tasks (db_with (handed "Sara")) !! task_id = Some (handed "Sara"))
    by (vm_compute; reflexivity).
  assert (Hk : castObjectId (JStr task_id) = Some task_id) by reflexivity.
  destruct (updateStatus_frame (db_with (handed "Sara")) sara task_id
              (JStr "completed") (db_with finished) finished task_id
              (handed "Sara") Hk Ht Hu)
    as (_ & _ & _ & _ & _ & _ & _ & Hto & _ & Hstored & _).
  split; [exact Hu|]. split; [exact Hto | exact Hstored].
Defined.

Lemma updateStatus_falsy_noop_witness :
  truthy (JStr "") = false
  /\ updateStatus (db_with finished) bilal task_id (JStr "")
     = Done (db_with finished, finished).
Proof.
  split; [reflexivity|].
  apply (updateStatus_falsy_noop (db_with finished) bilal task_id (JStr "")
           task_id finished).
  - reflexivity.
  - vm_compute; reflexivity.
  - right. reflexivity.
  - reflexivity.
Defined.



Lemma create_customerId_witness :
  body_customerId pickup_for_tariq = JStr tariq_id
  /\ create db0 task_id amina pickup_for_tariq
     = Done (db_with requested, requested)
  /\ castObjectId (JStr (user_id amina)) = Some (customerId requested)
  /\ customerId requested = user_id amina.
Proof.
  assert (Hc : create db0 task_id amina pickup_for_tariq
               = Done (db_with requested, requested))
    by (vm_compute; reflexivity).
  split; [reflexivity|]. split; [exact Hc|]. split; [|reflexivity].
  apply (create_customerId db0 task_id amina pickup_for_tariq
           (db_with requested) requested Hc).
  reflexivity.
Defined.





End Scenario.

(** * The further properties on the sample database *)

Module MoreScenarios.
Import Sample MoreSamples.
#[local] Existing Instance hex_driver.

Lemma verifyToken_ignores_trailing_witness :
  no_space "tok.en.1" = true
  /\ verifyToken one_token (Some "Bearer tok.en.1 and more")
     = verifyToken one_token (Some "Bearer tok.en.1").
Proof.
  split; [reflexivity|].
  apply (verifyToken_ignores_trailing one_token "tok.en.1" "and more").
  reflexivity.
Defined.

Lemma verifyToken_claims_normalized_witness :
  verifyToken one_token (Some "Bearer tok.en.1") = Done bilal
  /\ toLowerCase "manager" = "manager".
Proof.
  assert (Hv : verifyToken one_token (Some "Bearer tok.en.1") = Done bilal)
    by reflexivity.
  split; [exact Hv|].
  apply (proj1 (verifyToken_claims_normalized one_token _ bilal Hv) "manager").
  reflexivity.
Defined.

Lemma verifyToken_issued_token_witness :
  issued "tok.en.2" = Some (signToken_payload sara_id sara_doc)
  /\ verifyToken issued (Some "Bearer tok.en.2")
     = Done (mkClaims sara_id (Some "staff") "sara@example.com").
Proof.
  split; [reflexivity|].
  apply (verifyToken_issued_token issued "tok.en.2" sara_id sara_doc);
    [discriminate | reflexivity | reflexivity].
Defined.

Lemma requireRole_throws_iff_witness :
  requireRole [JStr "admin"; JUndefined] (Some nobody) = Fail (Auth NoContext)
  /\ requireRole [JStr "admin"; JUndefined] (Some bilal) = Fail Uncaught.
Proof.
  destruct (requireRole_throws_iff [JStr "admin"; JUndefined]) as (Hnone & Hrole).
  split.
  - apply Hnone. left. reflexivity.
  - apply (Hrole bilal "manager"); [reflexivity | discriminate |].
    exists JUndefined. split; [|discriminate].
    apply list_elem_of_further, list_elem_of_here.
Defined.

Lemma create_only_by_creators_witness :
  create db0 task_id amina pickup = Done (db_with requested, requested)
  /\ (user_role amina = Some ROLES.ADMIN \/ user_role amina = Some ROLES.MANAGER
      \/ user_role amina = Some ROLES.CUSTOMER).
Proof.
  assert (Hc : create db0 task_id amina pickup = Done (db_with requested, requested))
    by (vm_compute; reflexivity).
  split; [exact Hc|]. exact (create_only_by_creators _ _ _ _ _ Hc).
Defined.

Lemma create_fresh_task_witness :
  create db0 task_id amina pickup_as_staff
    = Done (db_with requested_as_staff, requested_as_staff)
  /\ status requested_as_staff = Pending
  /\ RoleType_of_string "staff" = Some (roleType requested_as_staff).
Proof.
  assert (Hc : create db0 task_id amina pickup_as_staff
               = Done (db_with requested_as_staff, requested_as_staff))
    by (vm_compute; reflexivity).
  destruct (create_fresh_task _ _ _ _ _ _ Hc) as (Hst & _ & _ & _ & Hrt).
  split; [exact Hc|]. split; [exact Hst|].
  apply Hrt; [reflexivity | discriminate].
Defined.

Lemma create_adds_one_witness :
  create db0 task_id amina pickup = Done (db_with requested, requested)
  /\ tasks db0 !! task_id = None
  /\ tasks (db_with requested) !! task_id = Some requested.
Proof.
  assert (Hc : create db0 task_id amina pickup = Done (db_with requested, requested))
    by (vm_compute; reflexivity).
  destruct (create_adds_one _ _ _ _ _ _ Hc) as (Hfresh & Hnew & _).
  split; [exact Hc|]. split; [exact Hfresh | exact Hnew].
Defined.


Lemma assign_refusals_witness :
  elevated bilal
  /\ assign (db_with requested) bilal nameless = Fail MissingField.
Proof.
  assert (He : elevated bilal) by (right; reflexivity).
  split; [exact He|].
  apply (proj1 (assign_refusals (db_with requested) bilal nameless He)).
  reflexivity.
Defined.

Lemma assign_idempotent_witness :
  assign (db_with requested) bilal (to_sara "Sara")
    = Done (db_with (handed "Sara"), handed "Sara")
  /\ assign (db_with (handed "Sara")) bilal (to_sara "Sara")
     = Done (db_with (handed "Sara"), handed "Sara").
Proof.
  assert (Ha : assign (db_with requested) bilal (to_sara "Sara")
               = Done (db_with (handed "Sara"), handed "Sara"))
    by (vm_compute; reflexivity).
  split; [exact Ha|]. exact (assign_idempotent _ _ _ _ _ Ha).
Defined.

Lemma assign_hands_over_witness :
  assign (db_with requested) bilal (to_sara "Sara")
    = Done (db_with (handed "Sara"), handed "Sara")
  /\ updateStatus (db_with (handed "Sara")) tariq task_id (JStr "completed")
     = Fail (Auth Forbidden).
Proof.
  assert (Ha : assign (db_with requested) bilal (to_sara "Sara")
               = Done (db_with (handed "Sara"), handed "Sara"))
    by (vm_compute; reflexivity).
  split; [exact Ha|].
  assert (Hk : castObjectId (JStr task_id) = Some task_id) by reflexivity.
  apply (assign_hands_over _ _ _ _ _ task_id task_id Ha Hk Hk tariq);
    [reflexivity | discriminate].
Defined.

Lemma updateStatus_ungated_witness :
  customer_or_staff nobody = false
  /\ tasks (db_with finished) !! task_id = Some finished
  /\ updateStatus (db_with finished) nobody task_id (JStr "pending")
     = Done (with_tasks (db_with finished)
               (<[task_id := with_status finished Pending]>
                  (tasks (db_with finished))),
             with_status finished Pending).
Proof.
  assert (Ht : tasks (db_with finished) !! task_id = Some finished)
    by (vm_compute; reflexivity).
  split; [reflexivity|]. split; [exact Ht|].
  apply (updateStatus_ungated (db_with finished) nobody task_id task_id
           finished Pending); [reflexivity | exact Ht | reflexivity].
Defined.

Lemma updateStatus_unknown_status_witness :
  Status_of_string "done" = None
  /\ tasks (db_with finished) !! task_id = Some finished
  /\ updateStatus (db_with finished) bilal task_id (JStr "done") = Fail StoreError.
Proof.
  assert (Ht : tasks (db_with finished) !! task_id = Some finished)
    by (vm_compute; reflexivity).
  split; [reflexivity|]. split; [exact Ht|].
  apply (updateStatus_unknown_status (db_with finished) bilal task_id task_id
           finished "done");
    [reflexivity | exact Ht | reflexivity | discriminate | reflexivity].
Defined.

Lemma run_keeps_identity_witness :
  tasks (db_with requested) !! task_id = Some requested
  /\ users (run (db_with requested)
                [Assign bilal (to_sara "Sara");
                 UpdateStatus bilal task_id (JStr "in progress")])
     = users (db_with requested).
Proof.
  assert (Ht : tasks (db_with requested) !! task_id = Some requested)
    by (vm_compute; reflexivity).
  split; [exact Ht|].
  exact (proj1 (run_keeps_identity (db_with requested) _ task_id requested Ht)).
Defined.

Lemma run_staff_and_assignee_stay_witness :
  tasks (db_with (handed "Sara")) !! task_id = Some (handed "Sara")
  /\ exists t',
       tasks (run (db_with (handed "Sara"))
                  [UpdateStatus bilal task_id (JStr "pending")]) !! task_id
         = Some t'
       /\ (roleType (handed "Sara") = StaffTask -> roleType t' = StaffTask)
       /\ (assignedTo (handed "Sara") <> None -> assignedTo t' <> None).
Proof.
  assert (Ht : tasks (db_with (handed "Sara")) !! task_id = Some (handed "Sara"))
    by (vm_compute; reflexivity).
  split; [exact Ht|].
  exact (run_staff_and_assignee_stay (db_with (handed "Sara")) _ task_id _ Ht).
Defined.

Lemma reachable_requests_unassigned_witness :
  tasks (run db0 [Create task_id amina pickup;
                  UpdateStatus amina task_id (JStr "completed")]) !! task_id
    = Some (with_status requested Completed)
  /\ assignedTo (with_status requested Completed) = None.
Proof.
  assert (Ht : tasks (run (mkDb directory ∅)
                          [Create task_id amina pickup;
                           UpdateStatus amina task_id (JStr "completed")])
                 !! task_id = Some (with_status requested Completed))
    by (vm_compute; reflexivity).
  split; [exact Ht|].
  apply (reachable_requests_unassigned directory _ task_id _ Ht). reflexivity.
Defined.

Lemma deleteTask_removes_witness :
  deleteTask (db_with finished) bilal task_id = Done (db0, finished)
  /\ exists k, castObjectId (JStr task_id) = Some k
       /\ tasks (db_with finished) !! k = Some finished
       /\ tasks db0 !! k = None.
Proof.
  assert (Hd : deleteTask (db_with finished) bilal task_id = Done (db0, finished))
    by (vm_compute; reflexivity).
  split; [exact Hd|].
  destruct (deleteTask_removes _ _ _ _ _ Hd) as (_ & k & Hk & Ht & Hgone & _).
  exists k. auto.
Defined.

Lemma deleteTask_then_not_found_witness :
  deleteTask (db_with finished) bilal task_id = Done (db0, finished)
  /\ updateStatus db0 sara task_id (JStr "completed") = Fail NotFound
  /\ deleteTask db0 bilal task_id = Fail NotFound.
Proof.
  assert (Hd : deleteTask (db_with finished) bilal task_id = Done (db0, finished))
    by (vm_compute; reflexivity).
  destruct (deleteTask_then_not_found _ _ _ _ _ Hd) as (Hu & Hd2 & _).
  split; [exact Hd|]. split; [apply Hu | exact Hd2].
Defined.

Lemma listMine_scope_witness :
  listMine (db_with (handed "Sara")) sara = Done {[task_id := handed "Sara"]}
  /\ ({[task_id := handed "Sara"]} : gmap string Task) !! task_id
       = Some (handed "Sara")
  /\ tasks (db_with (handed "Sara")) !! task_id = Some (handed "Sara").
Proof.
  assert (Hl : listMine (db_with (handed "Sara")) sara
               = Done {[task_id := handed "Sara"]}) by (vm_compute; reflexivity).
  assert (Hm : ({[task_id := handed "Sara"]} : gmap string Task) !! task_id
               = Some (handed "Sara")) by (vm_compute; reflexivity).
  split; [exact Hl|]. split; [exact Hm|].
  assert (Hlow : forall r, user_role sara = Some r -> toLowerCase r = r)
    by (intros r [= <-]; reflexivity).
  assert (Hid : castObjectId (JStr (user_id sara)) = Some sara_id) by reflexivity.
  exact (proj1 (proj1 (listMine_scope _ sara sara_id _ Hlow Hid Hl task_id
                         (handed "Sara")) Hm)).
Defined.

Lemma listMine_capitalised_role_witness :
  user_role sara_capital = Some "Staff"
  /\ listMine (db_with requested) sara_capital = Done (tasks (db_with requested)).
Proof.
  split; [reflexivity|].
  apply (listMine_capitalised_role (db_with requested) sara_capital "Staff");
    [reflexivity | | discriminate | discriminate].
  vm_compute. apply list_elem_of_further, list_elem_of_here.
Defined.

Lemma assign_changes_lists_witness :
  assign (db_with requested) bilal (to_sara "Sara")
    = Done (db_with (handed "Sara"), handed "Sara")
  /\ listMine (db_with (handed "Sara")) amina = Done ∅
  /\ (∅ : gmap string Task) !! task_id = None.
Proof.
  assert (Ha : assign (db_with requested) bilal (to_sara "Sara")
               = Done (db_with (handed "Sara"), handed "Sara"))
    by (vm_compute; reflexivity).
  assert (Hl : listMine (db_with (handed "Sara")) amina = Done ∅)
    by (vm_compute; reflexivity).
  split; [exact Ha|]. split; [exact Hl|].
  assert (Hk : castObjectId (requestId (to_sara "Sara")) = Some task_id)
    by reflexivity.
  apply (proj1 (assign_changes_lists _ _ _ _ _ task_id Ha Hk) amina ∅);
    [reflexivity | exact Hl].
Defined.

Lemma create_then_listMine_witness :
  create db0 task_id amina pickup_as_staff
    = Done (db_with requested_as_staff, requested_as_staff)
  /\ listMine (db_with requested_as_staff) amina = Done ∅
  /\ (∅ : gmap string Task) !! task_id = None.
Proof.
  assert (Hc : create db0 task_id amina pickup_as_staff
               = Done (db_with requested_as_staff, requested_as_staff))
    by (vm_compute; reflexivity).
  assert (Hl : listMine (db_with requested_as_staff) amina = Done ∅)
    by (vm_compute; reflexivity).
  split; [exact Hc|]. split; [exact Hl|].
  apply (proj2 (create_then_listMine db0 task_id amina pickup_as_staff _ _ ∅
                  eq_refl Hc Hl)).
  reflexivity.
Defined.



Lemma deleted_expense_not_found_witness :
  ledger !! fuel_id = Some fuel /\ isDeleted fuel = true
  /\ restore ledger bilal fuel_id = Fail NotFound.
Proof.
  assert (He : ledger !! fuel_id = Some fuel) by (vm_compute; reflexivity).
  split; [exact He|]. split; [reflexivity|].
  apply (deleted_expense_not_found ledger bilal fuel_id fuel_id fuel);
    [reflexivity | exact He | reflexivity | right; reflexivity].
Defined.


Lemma soft_deleted_forever_witness :
  ledger !! fuel_id = Some fuel
  /\ run_expenses ledger [Restore bilal fuel_id; HardDelete bilal fuel_id;
                          SoftDelete bilal rent_id] !! fuel_id = Some fuel.
Proof.
  assert (He : ledger !! fuel_id = Some fuel) by (vm_compute; reflexivity).
  split; [exact He|].
  apply (soft_deleted_forever ledger _ fuel_id fuel He). reflexivity.
Defined.

End MoreScenarios.
